(** * mqtt-experiment: the publisher and subscriber scripts

    A shallow embedding of [scripts/publisher.py] and
    [scripts/subscriber.py].  Both scripts are straight-line orchestration
    around three external capabilities: the file system ([os.path.isfile],
    [os.access]), the MQTT client object (paho) and the standard library
    ([json], [random], [time]).  The embedding keeps the scripts' control
    flow as it is written and makes every external answer an explicit
    input:

    - what a script does to the outside world is recorded, in order, in a
      state that is threaded through every function: the lines handed to
      the logger and the calls made on the client object;
    - Python exceptions are results of the computation ([Raise e]), and
      [try]/[except]/[finally] are combinators over them;
    - the answers of the outside world (file status, random draws, the
      clock, what a client call returns or raises) come from an oracle
      argument. *)

From Stdlib Require Import ZArith NArith List String Ascii Bool Lia QArith.
From Stdlib Require Import Decimal DecimalString DecimalZ DecimalFacts.
Import ListNotations.

Local Open Scope string_scope.
Local Open Scope Z_scope.

Local Set Warnings "-register-all".

(* ================================================================= *)
(** ** Python values and exceptions *)

Module Py.

(** The values [json.loads] can return ([float]s keep their printed
    form), which are also the values a message dictionary can hold.  A
    [dict] is its item list in insertion order, keys distinct. *)
Inductive value : Type :=
| PNone
| PBool (b : bool)
| PInt (z : Z)
| PFloat (repr : string)
| PStr (s : string)
| PList (l : list value)
| PDict (items : list (string * value)).

(** Exceptions the scripts can meet.  [KeyboardInterrupt] and
    [SystemExit] derive from [BaseException] only; every other one is
    an [Exception]. *)
Inductive exn : Type :=
| KeyboardInterrupt
| SystemExit
| KeyError (k : string)
| TypeError
| UnboundLocalError (name : string)
| UnicodeDecodeError
| JSONDecodeError
| OtherError (what : string).

(** [isinstance(e, Exception)] *)
Definition is_Exception (e : exn) : bool :=
  match e with
  | KeyboardInterrupt | SystemExit => false
  | _ => true
  end.

(** What evaluating an expression or running a block gives: a value,
    an exception, or nothing yet ([Running]: the block has not finished
    by the end of the observed run, as [while True] and a blocking
    [loop_forever] do). *)
Inductive result (A : Type) : Type :=
| Ok (a : A)
| Raise (e : exn)
| Running.
Arguments Ok {A} a.
Arguments Raise {A} e.
Arguments Running {A}.

Fixpoint dict_get (items : list (string * value)) (k : string) : option value :=
  match items with
  | [] => None
  | (k', v) :: rest => if String.eqb k k' then Some v else dict_get rest k
  end.

(** [obj[k]] for a string key [k]: a [dict] answers or raises
    [KeyError]; no other JSON value accepts a string subscript. *)
Definition getitem (obj : value) (k : string) : result value :=
  match obj with
  | PDict items =>
      match dict_get items k with
      | Some v => Ok v
      | None => Raise (KeyError k)
      end
  | _ => Raise TypeError
  end.

(** [v == s] for a string literal [s]. *)
Definition eq_str (v : value) (s : string) : bool :=
  match v with
  | PStr x => String.eqb x s
  | _ => false
  end.

Definition keys (items : list (string * value)) : list string := map fst items.

End Py.
Import Py.

(* ================================================================= *)
(** ** The logger and the client object *)

Inductive level : Type := DEBUG | INFO | WARNING | ERROR.

(** An f-string is kept as its pieces: the literal text and the
    interpolated objects, left unrendered where Python's [str()] of the
    object is library defined. *)
Inductive piece : Type :=
| Lit (s : string)
| FStr (s : string)
| FVal (v : value)
| FBytes (b : list Byte.byte)
| FCode (rc : Z)
| FExn (e : exn).

Record entry : Type := { e_level : level; e_text : list piece }.

(** The spec's connection states. *)
Inductive ConnectionState : Type := Disconnected | Connecting | Connected | Failed.

(** Calls the scripts make on the outside world, as they are written. *)
Inductive call : Type :=
| NewClient (prefix : string) (suffix : Z)
| TlsSet (ca_certs certfile keyfile : string)
| Connect (host : string) (port : Z)
| LoopStart
| LoopForever
| Publish (topic payload : string) (qos : Z)
| Subscribe (topic : string) (qos : Z)
| Sleep (seconds : Q)
| LoopStop
| Disconnect.

(** Everything a script can change.  [st_debug] is the logger's level
    ([true] after [logger.setLevel(logging.DEBUG)]); [st_conn] is the
    session's connection state, which the scripts never assign. *)
Record state : Type := {
  st_debug : bool;
  st_log : list entry;
  st_calls : list call;
  st_conn : ConnectionState
}.

Definition initial_state : state :=
  {| st_debug := false; st_log := []; st_calls := []; st_conn := Disconnected |}.

(** *** A state and exception monad for the scripts *)

Definition M (A : Type) : Type := state -> result A * state.

Definition ret {A} (a : A) : M A := fun st => (Ok a, st).

Definition raise {A} (e : exn) : M A := fun st => (Raise e, st).

Definition bind {A B} (m : M A) (k : A -> M B) : M B :=
  fun st =>
    match m st with
    | (Ok a, st') => k a st'
    | (Raise e, st') => (Raise e, st')
    | (Running, st') => (Running, st')
    end.

Declare Scope py_scope.
Delimit Scope py_scope with py.
Notation "x <- m ;; k" := (bind m (fun x => k))
  (at level 61, m at next level, right associativity) : py_scope.
Notation "m ;; k" := (bind m (fun _ => k))
  (at level 61, right associativity) : py_scope.
Local Open Scope py_scope.

Definition lift {A} (r : result A) : M A := fun st => (r, st).

(** [try: body  except ...: handler e]; a handler that does not match
    re-raises. *)
Definition try_except {A} (body : M A) (handler : exn -> M A) : M A :=
  fun st =>
    match body st with
    | (Ok a, st') => (Ok a, st')
    | (Raise e, st') => handler e st'
    | (Running, st') => (Running, st')
    end.

(** [try: body  finally: cleanup]: the cleanup runs however the body
    ends; what it raises replaces the body's outcome. *)
Definition try_finally {A} (body : M A) (cleanup : M unit) : M A :=
  fun st =>
    match body st with
    | (Running, st') => (Running, st')
    | (r, st') =>
        match cleanup st' with
        | (Ok _, st'') => (r, st'')
        | (Raise e, st'') => (Raise e, st'')
        | (Running, st'') => (Running, st'')
        end
    end.

Definition enabled (debug : bool) (l : level) : bool :=
  match l with
  | DEBUG => debug
  | _ => true
  end.

(** [logger.<level>(text)]: the record is emitted when the logger's
    level lets it through. *)
Definition log (l : level) (text : list piece) : M unit :=
  fun st =>
    (Ok tt,
     if enabled (st_debug st) l
     then {| st_debug := st_debug st;
             st_log := st_log st ++ [ {| e_level := l; e_text := text |} ];
             st_calls := st_calls st;
             st_conn := st_conn st |}
     else st).

(** A call on the outside world: recorded, then answered by the oracle. *)
Definition do_call {A} (c : call) (answer : result A) : M A :=
  fun st =>
    (answer,
     {| st_debug := st_debug st;
        st_log := st_log st;
        st_calls := st_calls st ++ [c];
        st_conn := st_conn st |}).

Definition set_debug : M unit :=
  fun st =>
    (Ok tt,
     {| st_debug := true;
        st_log := st_log st;
        st_calls := st_calls st;
        st_conn := st_conn st |}).

(* ================================================================= *)
(** ** The file system *)

Record file_status : Type := {
  isfile : bool;      (* os.path.isfile(path) *)
  readable : bool     (* os.access(path, os.R_OK) *)
}.

Definition filesystem : Type := string -> file_status.

(** [check_cert_files], the same function in both scripts. *)
Fixpoint check_cert_loop (fs : filesystem) (files : list string) : M bool :=
  match files with
  | [] => ret true
  | cert_file :: rest =>
      if negb (isfile (fs cert_file)) then
        log ERROR [Lit "Certificate file not found: "; FStr cert_file] ;;
        ret false
      else if negb (readable (fs cert_file)) then
        log ERROR [Lit "Certificate file not readable: "; FStr cert_file] ;;
        ret false
      else check_cert_loop fs rest
  end.

Definition check_cert_files (fs : filesystem) (ca_cert client_cert client_key : string)
  : M bool :=
  check_cert_loop fs [ca_cert; client_cert; client_key].

(* ================================================================= *)
(** ** Library functions the scripts call

    [random], [time] and [json] belong to Python's standard library.
    Each is written here from its documented behaviour, with the raw
    entropy and the clock reading as arguments. *)

Module Lib.

(** [random.Random._randbelow(n)]: some [k] with [0 <= k < n], here
    the raw draw reduced below [n]. *)
Definition randbelow (n : Z) (draw : N) : Z := Z.of_N draw mod n.

(** [random.randint(a, b)] is [randrange(a, b + 1)], that is
    [a + _randbelow(b + 1 - a)]. *)
Definition randint (a b : Z) (draw : N) : Z := a + randbelow (b + 1 - a) draw.

(** [random.choice(seq)] is [seq[_randbelow(len(seq))]]. *)
Definition choice (seq : list string) (draw : N) : string :=
  nth (Z.to_nat (randbelow (Z.of_nat (List.length seq)) draw)) seq "".

(** The broken-down local time [time.strftime] formats. *)
Record struct_time : Type := {
  tm_year : N; tm_mon : N; tm_mday : N;
  tm_hour : N; tm_min : N; tm_sec : N
}.

Definition dec (n : N) : string := NilZero.string_of_uint (N.to_uint n).

(** The two-digit fields ([%m %d %H %M %S]) are zero padded. *)
Definition dec2 (n : N) : string :=
  if (n <? 10)%N then "0" ++ dec n else dec n.

(** [time.strftime("%Y-%m-%d %H:%M:%S")] *)
Definition strftime (t : struct_time) : string :=
  dec (tm_year t) ++ "-" ++ dec2 (tm_mon t) ++ "-" ++ dec2 (tm_mday t)
  ++ " " ++ dec2 (tm_hour t) ++ ":" ++ dec2 (tm_min t) ++ ":" ++ dec2 (tm_sec t).

(** *** [json.dumps]

    Default settings: [ensure_ascii=True], separators [", "] and
    [": "], items in the dictionary's order.  Text is held as its
    UTF-8 bytes, so a character outside ASCII is first read back as a
    code point, then escaped as a [u]-escape of four hex digits (a surrogate pair above
    U+FFFF). *)

Definition hex_digit (n : N) : ascii :=
  match String.get (N.to_nat n) "0123456789abcdef" with
  | Some c => c
  | None => "0"%char
  end.

Definition hex4 (n : N) : string :=
  String (hex_digit (N.shiftr n 12 mod 16))
    (String (hex_digit (N.shiftr n 8 mod 16))
       (String (hex_digit (N.shiftr n 4 mod 16))
          (String (hex_digit (n mod 16)) ""))).

Definition quote : string := String (ascii_of_N 34) "".
Definition backslash : string := String (ascii_of_N 92) "".

Definition escape_codepoint (n : N) : string :=
  if (n <? 65536)%N then backslash ++ "u" ++ hex4 n
  else
    let v := (n - 65536)%N in
    backslash ++ "u" ++ hex4 (N.lor 55296 (N.shiftr v 10 mod 1024))
    ++ backslash ++ "u" ++ hex4 (N.lor 56320 (v mod 1024)).

(** The low six bits of a continuation byte. *)
Definition cont (c : ascii) : N := (N_of_ascii c mod 64)%N.

(** One ASCII character, as [py_encode_basestring_ascii] writes it. *)
Definition escape_ascii (c : ascii) : string :=
  let n := N_of_ascii c in
  if (n =? 34)%N then backslash ++ quote
  else if (n =? 92)%N then backslash ++ backslash
  else if (n =? 8)%N then backslash ++ "b"
  else if (n =? 12)%N then backslash ++ "f"
  else if (n =? 10)%N then backslash ++ "n"
  else if (n =? 13)%N then backslash ++ "r"
  else if (n =? 9)%N then backslash ++ "t"
  else if ((32 <=? n) && (n <=? 126))%N then String c ""
  else escape_codepoint n.

Fixpoint escape_text (s : string) : string :=
  match s with
  | EmptyString => ""
  | String c rest =>
      let n := N_of_ascii c in
      if (n <? 128)%N then escape_ascii c ++ escape_text rest
      else if (n <? 224)%N then
        match rest with
        | String c1 rest1 =>
            escape_codepoint ((n mod 32) * 64 + cont c1) ++ escape_text rest1
        | EmptyString => escape_codepoint n
        end
      else if (n <? 240)%N then
        match rest with
        | String c1 (String c2 rest2) =>
            escape_codepoint ((n mod 16) * 4096 + cont c1 * 64 + cont c2)
            ++ escape_text rest2
        | _ => escape_codepoint n
        end
      else
        match rest with
        | String c1 (String c2 (String c3 rest3)) =>
            escape_codepoint
              ((n mod 8) * 262144 + cont c1 * 4096 + cont c2 * 64 + cont c3)
            ++ escape_text rest3
        | _ => escape_codepoint n
        end
  end.

Definition dumps_str (s : string) : string := quote ++ escape_text s ++ quote.

Definition dumps_int (z : Z) : string := NilZero.string_of_int (Z.to_int z).

Fixpoint json_dumps (v : value) : string :=
  match v with
  | PNone => "null"
  | PBool true => "true"
  | PBool false => "false"
  | PInt z => dumps_int z
  | PFloat repr => repr
  | PStr s => dumps_str s
  | PList l =>
      "[" ++ (fix elems (l : list value) : string :=
                match l with
                | [] => ""
                | [x] => json_dumps x
                | x :: rest => json_dumps x ++ ", " ++ elems rest
                end) l ++ "]"
  | PDict items =>
      "{" ++ (fix members (l : list (string * value)) : string :=
                match l with
                | [] => ""
                | [(k, x)] => dumps_str k ++ ": " ++ json_dumps x
                | (k, x) :: rest =>
                    dumps_str k ++ ": " ++ json_dumps x ++ ", " ++ members rest
                end) items ++ "}"
  end.

End Lib.

(* ================================================================= *)
(** ** scripts/publisher.py *)

Module Publisher.
Import Lib.

(** [parse_arguments()]'s namespace. *)
Record args : Type := {
  broker : string;
  port : Z;
  topic : string;
  interval : Q;
  ca_cert : string;
  cert : string;
  key : string;
  debug : bool
}.

Definition DEFAULT_BROKER : string := "localhost".
Definition DEFAULT_PORT : Z := 8883.
Definition DEFAULT_TOPIC : string := "kobayashi/signals/test".
Definition DEFAULT_INTERVAL : Q := 10 # 1.

(** [userdata={"broker": args.broker}] *)
Record userdata : Type := { ud_broker : string }.

Definition on_connect (ud : userdata) (reason_code : Z) : M unit :=
  if reason_code =? 0 then
    log INFO [Lit "Connected to MQTT Broker: "; FStr (ud_broker ud);
              Lit " using TLS/SSL"]
  else
    log ERROR [Lit "Failed to connect, return code: "; FCode reason_code].

Definition on_publish (mid : Z) : M unit :=
  log DEBUG [Lit "Message "; FCode mid; Lit " published successfully"].

Definition on_disconnect (reason_code : Z) : M unit :=
  if reason_code =? 0 then log INFO [Lit "Disconnected successfully"]
  else log WARNING [Lit "Unexpected disconnection, reason code: ";
                    FCode reason_code].

Definition statuses : list string := ["green"; "yellow"; "red"].

(** [create_sample_message(message_count)], given the clock reading
    and the two random draws it consumes. *)
Definition create_sample_message (message_count : Z) (now : struct_time)
    (draw_value draw_status : N) : value :=
  PDict [ ("message_id", PInt message_count);
          ("timestamp", PStr (strftime now));
          ("value", PInt (randint 0 100 draw_value));
          ("status", PStr (choice statuses draw_status)) ].

(** What the outside world answers during one turn of the loop. *)
Record cycle : Type := {
  c_now : struct_time;
  c_draw_value : N;
  c_draw_status : N;
  c_publish : result Z;      (* [client.publish(...)[0]], or what it raises *)
  c_sleep : result unit      (* [time.sleep(...)] returns or is interrupted *)
}.

(** What the outside world answers during one run. *)
Record oracle : Type := {
  o_fs : filesystem;
  o_client_draw : N;
  o_tls_set : result unit;
  o_connect : result unit;
  o_cycles : list cycle;
  o_loop_stop : result unit;
  o_disconnect : result unit
}.

(** The body of [while True:], entered with the current
    [message_count].  The loop has no exit of its own: when the
    observed cycles are used up it is still running. *)
Fixpoint publish_loop (a : args) (message_count : Z) (cycles : list cycle)
  : M unit :=
  match cycles with
  | [] => lift Running
  | c :: rest =>
      let message_count := message_count + 1 in
      let message :=
        create_sample_message message_count (c_now c)
          (c_draw_value c) (c_draw_status c) in
      let payload := json_dumps message in
      status <- do_call (Publish (topic a) payload 1) (c_publish c) ;;
      (if status =? 0 then log INFO [Lit "Sent message: "; FStr payload]
       else log ERROR [Lit "Failed to send message with status ";
                       FCode status]) ;;
      do_call (Sleep (interval a)) (c_sleep c) ;;
      publish_loop a message_count rest
  end.

(** The [except] clauses around the loop. *)
Definition loop_handler (e : exn) : M unit :=
  match e with
  | KeyboardInterrupt => log INFO [Lit "Publisher terminated by user"]
  | _ =>
      if is_Exception e then log ERROR [Lit "Error: "; FExn e]
      else raise e
  end.

(** The [finally] clause. *)
Definition shutdown (o : oracle) : M unit :=
  try_except
    (do_call LoopStop (o_loop_stop o) ;;
     do_call Disconnect (o_disconnect o))
    (fun e =>
       if is_Exception e then log ERROR [Lit "Disconnect failed: "; FExn e]
       else raise e) ;;
  log INFO [Lit "Disconnected from broker"].

(** [main()]; its value is the process's exit code. *)
Definition main (a : args) (o : oracle) : M Z :=
  (if debug a then set_debug else ret tt) ;;
  certs_ok <- check_cert_files (o_fs o) (ca_cert a) (cert a) (key a) ;;
  if negb certs_ok then ret 1
  else
    do_call (NewClient "kobayashi-publisher-" (randint 0 1000 (o_client_draw o)))
            (Ok tt) ;;
    log INFO [Lit "Setting up TLS/SSL with certificate authentication"] ;;
    tls_ok <- try_except
                (do_call (TlsSet (ca_cert a) (cert a) (key a)) (o_tls_set o) ;;
                 ret true)
                (fun e =>
                   if is_Exception e then
                     log ERROR [Lit "Failed to set up TLS: "; FExn e] ;;
                     ret false
                   else raise e) ;;
    if negb tls_ok then ret 1
    else
      log INFO [Lit "Connecting to secure broker "; FStr (broker a);
                Lit ":"; FCode (port a); Lit "..."] ;;
      connected <- try_except
                     (do_call (Connect (broker a) (port a)) (o_connect o) ;;
                      ret true)
                     (fun e =>
                        if is_Exception e then
                          log ERROR [Lit "Connection failed: "; FExn e] ;;
                          ret false
                        else raise e) ;;
      if negb connected then ret 1
      else
        do_call LoopStart (Ok tt) ;;
        try_finally
          (try_except (publish_loop a 0 (o_cycles o)) loop_handler)
          (shutdown o) ;;
        ret 0.

(** One process run, from a fresh interpreter. *)
Definition run (a : args) (o : oracle) : result Z * state :=
  main a o initial_state.

(** The [message_id]s of the payloads handed to [client.publish]. *)
Definition published (calls : list call) : list string :=
  flat_map (fun c => match c with
                     | Publish _ payload _ => [payload]
                     | _ => []
                     end) calls.

End Publisher.

(* ================================================================= *)
(** ** Reading JSON text and UTF-8 bytes

    [json.loads] on the part of JSON the producer's payloads live in:
    objects, arrays, strings with the two-character escapes, integers
    and the three literals, with insignificant white space.  Text with a
    fraction, an exponent, a [u]-escape or one of Python's [NaN] and
    [Infinity] extensions is outside this part and is not accepted here;
    the consumer's handler below does not depend on this reader, it
    takes the decoder as a parameter. *)

Module Json.
Import Lib.

Definition is_ws (c : ascii) : bool :=
  let n := N_of_ascii c in
  ((n =? 32) || (n =? 9) || (n =? 10) || (n =? 13))%N.

Fixpoint skip_ws (s : string) : string :=
  match s with
  | String c rest => if is_ws c then skip_ws rest else s
  | EmptyString => s
  end.

Definition is_digit (c : ascii) : bool :=
  let n := N_of_ascii c in ((48 <=? n) && (n <=? 57))%N.

Fixpoint span_digits (s : string) : string * string :=
  match s with
  | String c rest =>
      if is_digit c then
        let (ds, out) := span_digits rest in (String c ds, out)
      else (EmptyString, s)
  | EmptyString => (EmptyString, EmptyString)
  end.

(** A fraction or an exponent would start here. *)
Definition starts_float_tail (s : string) : bool :=
  match s with
  | String c _ =>
      let n := N_of_ascii c in ((n =? 46) || (n =? 101) || (n =? 69))%N
  | EmptyString => false
  end.

Definition leading_zero (ds : string) : bool :=
  match ds with
  | String c (String _ _) => (N_of_ascii c =? 48)%N
  | _ => false
  end.

Definition parse_digits (negative : bool) (s : string) : option (value * string) :=
  let (ds, rest) := span_digits s in
  if leading_zero ds || starts_float_tail rest then None
  else
    match NilZero.uint_of_string ds with
    | Some u =>
        Some (PInt (if negative then - Z.of_uint u else Z.of_uint u), rest)
    | None => None
    end.

(** The character a two-character escape stands for. *)
Definition unescape (c : ascii) : option ascii :=
  let n := N_of_ascii c in
  if (n =? 34)%N then Some c
  else if (n =? 92)%N then Some c
  else if (n =? 47)%N then Some c
  else if (n =? 98)%N then Some (ascii_of_N 8)
  else if (n =? 102)%N then Some (ascii_of_N 12)
  else if (n =? 110)%N then Some (ascii_of_N 10)
  else if (n =? 114)%N then Some (ascii_of_N 13)
  else if (n =? 116)%N then Some (ascii_of_N 9)
  else None.

(** The characters of a string after its opening quote, up to and
    past the closing one.  A raw control character is an error. *)
Fixpoint parse_chars (s : string) : option (string * string) :=
  match s with
  | EmptyString => None
  | String c rest =>
      let n := N_of_ascii c in
      if (n =? 34)%N then Some (EmptyString, rest)
      else if (n =? 92)%N then
        match rest with
        | String e rest' =>
            match unescape e, parse_chars rest' with
            | Some ch, Some (body, out) => Some (String ch body, out)
            | _, _ => None
            end
        | EmptyString => None
        end
      else if (n <? 32)%N then None
      else
        match parse_chars rest with
        | Some (body, out) => Some (String c body, out)
        | None => None
        end
  end.

(** [d[k] = v] on a dictionary: a known key keeps its place. *)
Fixpoint dict_set (items : list (string * value)) (k : string) (v : value)
  : list (string * value) :=
  match items with
  | [] => [(k, v)]
  | (k', v') :: rest =>
      if String.eqb k k' then (k', v) :: rest
      else (k', v') :: dict_set rest k v
  end.

Definition expect (c : N) (s : string) : option string :=
  match s with
  | String c' rest => if (N_of_ascii c' =? c)%N then Some rest else None
  | EmptyString => None
  end.

Definition literal (word : string) (v : value) (s : string)
  : option (value * string) :=
  if String.prefix word s
  then Some (v, String.substring (String.length word)
                  (String.length s - String.length word) s)
  else None.

(** Recursive descent; [fuel] bounds the nesting and the number of
    items, and the length of the text is always enough. *)
Fixpoint parse_value (fuel : nat) (s : string) : option (value * string) :=
  match fuel with
  | O => None
  | S fuel' =>
      match skip_ws s with
      | EmptyString => None
      | String c rest =>
          let n := N_of_ascii c in
          if (n =? 123)%N then                       (* { *)
            match skip_ws rest with
            | String c' rest' =>
                if (N_of_ascii c' =? 125)%N then Some (PDict [], rest')
                else parse_members fuel' [] (skip_ws rest)
            | EmptyString => None
            end
          else if (n =? 91)%N then                   (* [ *)
            match skip_ws rest with
            | String c' rest' =>
                if (N_of_ascii c' =? 93)%N then Some (PList [], rest')
                else parse_elems fuel' [] (skip_ws rest)
            | EmptyString => None
            end
          else if (n =? 34)%N then                   (* string *)
            match parse_chars rest with
            | Some (body, out) => Some (PStr body, out)
            | None => None
            end
          else if (n =? 45)%N then parse_digits true rest
          else if is_digit c then parse_digits false (String c rest)
          else if (n =? 110)%N then literal "null" PNone (String c rest)
          else if (n =? 116)%N then literal "true" (PBool true) (String c rest)
          else if (n =? 102)%N then literal "false" (PBool false) (String c rest)
          else None
      end
  end

with parse_members (fuel : nat) (acc : list (string * value)) (s : string)
  : option (value * string) :=
  match fuel with
  | O => None
  | S fuel' =>
      match expect 34 s with
      | None => None
      | Some s1 =>
          match parse_chars s1 with
          | None => None
          | Some (k, s2) =>
              match expect 58 (skip_ws s2) with
              | None => None
              | Some s3 =>
                  match parse_value fuel' s3 with
                  | None => None
                  | Some (v, s4) =>
                      let acc' := dict_set acc k v in
                      match skip_ws s4 with
                      | String c rest =>
                          if (N_of_ascii c =? 125)%N then Some (PDict acc', rest)
                          else if (N_of_ascii c =? 44)%N
                          then parse_members fuel' acc' (skip_ws rest)
                          else None
                      | EmptyString => None
                      end
                  end
              end
          end
      end
  end

with parse_elems (fuel : nat) (acc : list value) (s : string)
  : option (value * string) :=
  match fuel with
  | O => None
  | S fuel' =>
      match parse_value fuel' s with
      | None => None
      | Some (v, s1) =>
          match skip_ws s1 with
          | String c rest =>
              if (N_of_ascii c =? 93)%N then Some (PList (acc ++ [v]), rest)
              else if (N_of_ascii c =? 44)%N
              then parse_elems fuel' (acc ++ [v]) rest
              else None
          | EmptyString => None
          end
      end
  end.

(** [json.loads(s)]: one value, then nothing but white space.  [None]
    is [JSONDecodeError]. *)
Definition json_loads (s : string) : option value :=
  match parse_value (S (String.length s)) s with
  | Some (v, rest) =>
      match skip_ws rest with
      | EmptyString => Some v
      | String _ _ => None
      end
  | None => None
  end.

(** *** [bytes.decode("utf-8")]

    Text is kept as its UTF-8 bytes, so decoding is checking that the
    bytes are well formed: no stray continuation byte, no overlong
    form, no surrogate, nothing above U+10FFFF.  [None] is
    [UnicodeDecodeError]. *)

Definition is_cont (n : N) : bool := ((128 <=? n) && (n <=? 191))%N.

Fixpoint utf8_ok (fuel : nat) (b : list N) : bool :=
  match fuel with
  | O => false
  | S fuel' =>
      match b with
      | [] => true
      | n :: rest =>
          if (n <? 128)%N then utf8_ok fuel' rest
          else if ((194 <=? n) && (n <=? 223))%N then
            match rest with
            | c1 :: rest1 => is_cont c1 && utf8_ok fuel' rest1
            | _ => false
            end
          else if ((224 <=? n) && (n <=? 239))%N then
            match rest with
            | c1 :: c2 :: rest2 =>
                is_cont c1 && is_cont c2
                && (if (n =? 224)%N then (160 <=? c1)%N else true)
                && (if (n =? 237)%N then (c1 <=? 159)%N else true)
                && utf8_ok fuel' rest2
            | _ => false
            end
          else if ((240 <=? n) && (n <=? 244))%N then
            match rest with
            | c1 :: c2 :: c3 :: rest3 =>
                is_cont c1 && is_cont c2 && is_cont c3
                && (if (n =? 240)%N then (144 <=? c1)%N else true)
                && (if (n =? 244)%N then (c1 <=? 143)%N else true)
                && utf8_ok fuel' rest3
            | _ => false
            end
          else false
      end
  end.

Definition utf8_decode (payload : list Byte.byte) : option string :=
  if utf8_ok (S (List.length payload)) (map Byte.to_N payload)
  then Some (string_of_list_byte payload)
  else None.

(** [str.encode("utf-8")], what the client does to a text payload. *)
Definition utf8_encode (s : string) : list Byte.byte := list_byte_of_string s.

End Json.

(* ================================================================= *)
(** ** scripts/subscriber.py *)

Module Subscriber.
Import Lib.

Record args : Type := {
  broker : string;
  port : Z;
  topic : string;
  ca_cert : string;
  cert : string;
  key : string;
  debug : bool
}.

(** [userdata = {"topic": args.topic, "broker": args.broker}] *)
Record userdata : Type := { ud_topic : string; ud_broker : string }.

(** The [msg] object handed to [on_message]. *)
Record message : Type := { m_topic : string; m_payload : list Byte.byte }.

Definition required_fields : list string :=
  ["message_id"; "timestamp"; "value"; "status"].

Definition newline : string := String (ascii_of_N 10) "".

(** [on_connect]; [subscribed] is what [client.subscribe] answers. *)
Definition on_connect (ud : userdata) (reason_code : Z)
    (subscribed : result unit) : M unit :=
  if reason_code =? 0 then
    log INFO [Lit "Connected to MQTT Broker: "; FStr (ud_broker ud);
              Lit " using TLS/SSL"] ;;
    do_call (Subscribe (ud_topic ud) 1) subscribed ;;
    log INFO [Lit "Subscribed to topic: "; FStr (ud_topic ud)]
  else
    log ERROR [Lit "Failed to connect, return code: "; FCode reason_code].

Fixpoint warn_failed (idx : Z) (reason_code_list : list Z) : M unit :=
  match reason_code_list with
  | [] => ret tt
  | reason_code :: rest =>
      (if negb (reason_code =? 0) then
         log WARNING [Lit "Failed to subscribe to topic #"; FCode idx;
                      Lit ", reason code: "; FCode reason_code]
       else ret tt) ;;
      warn_failed (idx + 1) rest
  end.

Definition on_subscribe (mid : Z) (reason_code_list : option (list Z)) : M unit :=
  log DEBUG [Lit "Subscribed with message ID: "; FCode mid] ;;
  match reason_code_list with
  | Some (c :: l) => warn_failed 0 (c :: l)
  | _ => ret tt
  end.

Definition on_disconnect (reason_code : Z) : M unit :=
  if reason_code =? 0 then log INFO [Lit "Disconnected successfully"]
  else log WARNING [Lit "Unexpected disconnection, reason code: ";
                    FCode reason_code].

(** Reading a local variable of the function. *)
Definition local {A} (name : string) (v : option A) : M A :=
  match v with
  | Some a => ret a
  | None => raise (UnboundLocalError name)
  end.

Section Handler.

(** [bytes.decode("utf-8")] and [json.loads]: [None] stands for
    [UnicodeDecodeError] and for [json.JSONDecodeError]. *)
Variable decode : list Byte.byte -> option string.
Variable loads : string -> option value.

(** The [try] block of [on_message] from the header line on, with
    [message] parsed and [receive_time] taken. *)
Definition on_message_body (msg : message) (message : value)
    (receive_time : string) : M unit :=
  log INFO [Lit (newline ++ "--- New Message Received on ");
            FStr (m_topic msg); Lit " ---"] ;;
  v <- lift (getitem message "message_id") ;;
  log INFO [Lit "Message ID: "; FVal v] ;;
  v <- lift (getitem message "timestamp") ;;
  log INFO [Lit "Message timestamp: "; FVal v] ;;
  log INFO [Lit "Received at: "; FStr receive_time] ;;
  v <- lift (getitem message "value") ;;
  log INFO [Lit "Value: "; FVal v] ;;
  v <- lift (getitem message "status") ;;
  log INFO [Lit "Status: "; FVal v] ;;
  v <- lift (getitem message "status") ;;
  if eq_str v "red" then log WARNING [Lit "ALERT: Red status detected!"]
  else ret tt.

(** The three [except] clauses, with the function's locals as they
    stand when the exception arrives. *)
Definition on_message_except (msg : message) (payload_str : option string)
    (message : option value) (e : exn) : M unit :=
  match e with
  | JSONDecodeError =>
      log ERROR [Lit "Error decoding JSON message"] ;;
      s <- local "payload_str" payload_str ;;
      log DEBUG [Lit "Raw message: "; FStr s]
  | KeyError _ =>
      log ERROR [Lit "Missing expected key in message: "; FExn e] ;;
      m <- local "message" message ;;
      log DEBUG [Lit "Message content: "; FVal m]
  | _ =>
      if is_Exception e then
        log ERROR [Lit "Error processing message: "; FExn e] ;;
        log DEBUG [Lit "Raw message: "; FBytes (m_payload msg)]
      else raise e
  end.

(** [on_message(client, userdata, msg)]; [now] is the clock at the
    time of the call. *)
Definition on_message (msg : message) (now : struct_time) : M unit :=
  match decode (m_payload msg) with
  | None => on_message_except msg None None UnicodeDecodeError
  | Some payload_str =>
      match loads payload_str with
      | None => on_message_except msg (Some payload_str) None JSONDecodeError
      | Some message =>
          try_except
            (on_message_body msg message (strftime now))
            (on_message_except msg (Some payload_str) (Some message))
      end
  end.

(** What the network loop delivers to the callbacks. *)
Inductive event : Type :=
| EvConnect (reason_code : Z) (subscribed : result unit)
| EvSubscribe (mid : Z) (reason_code_list : option (list Z))
| EvMessage (msg : message) (now : struct_time)
| EvDisconnect (reason_code : Z).

Definition callback (ud : userdata) (ev : event) : M unit :=
  match ev with
  | EvConnect reason_code subscribed => on_connect ud reason_code subscribed
  | EvSubscribe mid reason_code_list => on_subscribe mid reason_code_list
  | EvMessage msg now => on_message msg now
  | EvDisconnect reason_code => on_disconnect reason_code
  end.

(** [client.loop_forever()]: the callbacks run one after the other
    on the caller's thread, and an exception leaving a callback
    leaves the loop; [ending] is how the loop itself ends once the
    observed events are delivered. *)
Fixpoint deliver (ud : userdata) (events : list event) (ending : result unit)
  : M unit :=
  match events with
  | [] => lift ending
  | ev :: rest => callback ud ev ;; deliver ud rest ending
  end.

Record oracle : Type := {
  o_fs : filesystem;
  o_client_draw : N;
  o_tls_set : result unit;
  o_connect : result unit;
  o_events : list event;
  o_loop_end : result unit;
  o_disconnect : result unit
}.

Definition loop_handler (e : exn) : M unit :=
  match e with
  | KeyboardInterrupt =>
      log INFO [Lit (newline ++ "Subscriber terminated by user")]
  | _ =>
      if is_Exception e then log ERROR [Lit "Error: "; FExn e]
      else raise e
  end.

Definition shutdown (o : oracle) : M unit :=
  try_except
    (do_call Disconnect (o_disconnect o))
    (fun e =>
       if is_Exception e then log ERROR [Lit "Disconnect failed: "; FExn e]
       else raise e) ;;
  log INFO [Lit "Disconnected from broker"].

Definition main (a : args) (o : oracle) : M Z :=
  (if debug a then set_debug else ret tt) ;;
  certs_ok <- check_cert_files (o_fs o) (ca_cert a) (cert a) (key a) ;;
  if negb certs_ok then ret 1
  else
    let ud := {| ud_topic := topic a; ud_broker := broker a |} in
    do_call (NewClient "kobayashi-subscriber-"
               (randint 0 1000 (o_client_draw o))) (Ok tt) ;;
    log INFO [Lit "Setting up TLS/SSL with certificate authentication"] ;;
    tls_ok <- try_except
                (do_call (TlsSet (ca_cert a) (cert a) (key a)) (o_tls_set o) ;;
                 ret true)
                (fun e =>
                   if is_Exception e then
                     log ERROR [Lit "Failed to set up TLS: "; FExn e] ;;
                     ret false
                   else raise e) ;;
    if negb tls_ok then ret 1
    else
      log INFO [Lit "Connecting to secure broker "; FStr (broker a);
                Lit ":"; FCode (port a); Lit "..."] ;;
      connected <- try_except
                     (do_call (Connect (broker a) (port a)) (o_connect o) ;;
                      ret true)
                     (fun e =>
                        if is_Exception e then
                          log ERROR [Lit "Connection failed: "; FExn e] ;;
                          ret false
                        else raise e) ;;
      if negb connected then ret 1
      else
        log INFO [Lit "Waiting for messages. Press Ctrl+C to exit."] ;;
        try_finally
          (try_except
             (do_call LoopForever (Ok tt) ;;
              deliver ud (o_events o) (o_loop_end o))
             loop_handler)
          (shutdown o) ;;
        ret 0.

Definition run (a : args) (o : oracle) : result Z * state :=
  main a o initial_state.

End Handler.

End Subscriber.

(* ================================================================= *)
(** ** Vocabulary of the statements *)

(** The state after the logger emitted [new] and nothing else happened. *)
Definition add_log (st : state) (new : list entry) : state :=
  {| st_debug := st_debug st;
     st_log := st_log st ++ new;
     st_calls := st_calls st;
     st_conn := st_conn st |}.

(** The state after the calls [cs] were made and nothing else happened. *)
Definition add_calls (st : state) (cs : list call) : state :=
  {| st_debug := st_debug st;
     st_log := st_log st;
     st_calls := st_calls st ++ cs;
     st_conn := st_conn st |}.

Definition line (l : level) (text : list piece) : entry :=
  {| e_level := l; e_text := text |}.

(** The lines a [logger.debug] adds: none unless the level is DEBUG. *)
Definition debug_line (debug : bool) (text : list piece) : list entry :=
  if debug then [line DEBUG text] else [].

Fixpoint contains (needle hay : string) : bool :=
  String.prefix needle hay
  || match hay with
     | String _ rest => contains needle rest
     | EmptyString => false
     end.

(** Some text piece of some line of the log has [needle] in it. *)
Definition log_contains (needle : string) (lines : list entry) : bool :=
  existsb (fun e =>
             existsb (fun p => match p with
                               | Lit s | FStr s => contains needle s
                               | _ => false
                               end) (e_text e)) lines.

Definition usable (fs : filesystem) (path : string) : bool :=
  isfile (fs path) && readable (fs path).

(** The first path, in the order the check visits them, that is not a
    readable regular file. *)
Definition first_unusable (fs : filesystem) (paths : list string) : option string :=
  find (fun p => negb (usable fs p)) paths.

(** The one line [check_cert_files] writes about a path it rejects. *)
Definition rejection (fs : filesystem) (path : string) : entry :=
  if isfile (fs path)
  then line ERROR [Lit "Certificate file not readable: "; FStr path]
  else line ERROR [Lit "Certificate file not found: "; FStr path].

(** The first required field a dictionary lacks, in the order
    [on_message] reads them. *)
Definition first_missing (items : list (string * value)) : option string :=
  find (fun k => match dict_get items k with
                 | Some _ => false
                 | None => true
                 end) Subscriber.required_fields.

Definition is_record (v : value) : bool :=
  match v with
  | PDict _ => true
  | _ => false
  end.

(** The [message_id] a payload carries, read back with the consumer's
    parser. *)
Definition payload_message_id (payload : string) : option Z :=
  match Json.json_loads payload with
  | Some (PDict items) =>
      match dict_get items "message_id" with
      | Some (PInt z) => Some z
      | _ => None
      end
  | _ => None
  end.

(** [first, first + 1, ...], [n] numbers. *)
Fixpoint count_from (first : Z) (n : nat) : list Z :=
  match n with
  | O => []
  | S n' => first :: count_from (first + 1) n'
  end.

(** A client call that ends, and not by an interrupt: it returns or
    raises an [Exception]. *)
Definition settles {A} (r : result A) : bool :=
  match r with
  | Ok _ => true
  | Raise e => is_Exception e
  | Running => false
  end.

(** The paths the check visits, in order. *)
Definition publisher_paths (a : Publisher.args) : list string :=
  [Publisher.ca_cert a; Publisher.cert a; Publisher.key a].

Definition subscriber_paths (a : Subscriber.args) : list string :=
  [Subscriber.ca_cert a; Subscriber.cert a; Subscriber.key a].

(** A path that is not a readable regular file. *)
Definition unusable (fs : filesystem) (path : string) : Prop :=
  isfile (fs path) = false \/ readable (fs path) = false.

(** *** The lines [on_message] writes *)

Definition header (msg : Subscriber.message) : entry :=
  line INFO [Lit (Subscriber.newline ++ "--- New Message Received on ");
             FStr (Subscriber.m_topic msg); Lit " ---"].

Definition label (field : string) : string :=
  if String.eqb field "message_id" then "Message ID: "
  else if String.eqb field "timestamp" then "Message timestamp: "
  else if String.eqb field "value" then "Value: "
  else "Status: ".

(** What reading one field that is present adds to the log; the time of
    receipt is logged right after the message's own timestamp. *)
Definition field_lines (items : list (string * value)) (receive_time : string)
    (field : string) : list entry :=
  match dict_get items field with
  | Some v =>
      line INFO [Lit (label field); FVal v]
      :: (if String.eqb field "timestamp"
          then [line INFO [Lit "Received at: "; FStr receive_time]]
          else [])
  | None => []
  end.

(** The fields read before [k]. *)
Fixpoint before (k : string) (fields : list string) : list string :=
  match fields with
  | [] => []
  | f :: rest => if String.eqb f k then [] else f :: before k rest
  end.

Definition missing_key_line (k : string) : entry :=
  line ERROR [Lit "Missing expected key in message: "; FExn (KeyError k)].

Definition alert_line : entry := line WARNING [Lit "ALERT: Red status detected!"].

Definition is_info (e : entry) : bool :=
  match e_level e with
  | INFO => true
  | _ => false
  end.

(** *** Text that needs no escaping *)

(** A printable ASCII character other than the quote and the backslash:
    [json.dumps] writes it as it is and [json.loads] reads it as it is. *)
Definition plain_char (c : ascii) : bool :=
  let n := N_of_ascii c in
  ((32 <=? n) && (n <=? 126) && negb (n =? 34) && negb (n =? 92))%N.

Fixpoint plain (s : string) : bool :=
  match s with
  | EmptyString => true
  | String c rest => plain_char c && plain rest
  end.

(** What may follow an integer: neither a digit nor the start of a
    fraction or an exponent. *)
Definition number_end (s : string) : bool :=
  match s with
  | String c _ => negb (Json.is_digit c) && negb (Json.starts_float_tail s)
  | EmptyString => true
  end.

(** A decimal numeral without leading zeros. *)
Definition normal (d : Decimal.uint) : Prop := Decimal.unorm d = d.

(** *** How the main loops end *)

(** How the producer's loop ends: at the first [publish] or [sleep]
    that does not return. *)
Fixpoint publisher_loop_exit (cycles : list Publisher.cycle) : result unit :=
  match cycles with
  | [] => Running
  | c :: rest =>
      match Publisher.c_publish c with
      | Ok _ =>
          match Publisher.c_sleep c with
          | Ok _ => publisher_loop_exit rest
          | Raise e => Raise e
          | Running => Running
          end
      | Raise e => Raise e
      | Running => Running
      end
  end.

(** How [loop_forever] ends: at the first [subscribe] that does not
    return, else as the loop itself ends. *)
Fixpoint subscriber_loop_exit (events : list Subscriber.event)
    (ending : result unit) : result unit :=
  match events with
  | [] => ending
  | Subscriber.EvConnect reason_code subscribed :: rest =>
      if reason_code =? 0 then
        match subscribed with
        | Ok _ => subscriber_loop_exit rest ending
        | Raise e => Raise e
        | Running => Running
        end
      else subscriber_loop_exit rest ending
  | _ :: rest => subscriber_loop_exit rest ending
  end.

(** A call made by the main loop of either script. *)
Definition loop_call (c : call) : bool :=
  match c with
  | Publish _ _ _ | Sleep _ | Subscribe _ _ => true
  | _ => false
  end.

(** The state after the logger emitted [new] and the calls [cs] were
    made. *)
Definition advance (st : state) (new : list entry) (cs : list call) : state :=
  add_calls (add_log st new) cs.

(** *** What a run leaves behind *)

Definition tls_line : entry :=
  line INFO [Lit "Setting up TLS/SSL with certificate authentication"].

Definition connecting_line (broker : string) (port : Z) : entry :=
  line INFO [Lit "Connecting to secure broker "; FStr broker; Lit ":";
             FCode port; Lit "..."].

Definition goodbye_line : entry := line INFO [Lit "Disconnected from broker"].

(** The calls of the producer's setup, up to the start of the network
    thread. *)
Definition publisher_setup_calls (a : Publisher.args) (o : Publisher.oracle)
  : list call :=
  [ NewClient "kobayashi-publisher-" (Lib.randint 0 1000 (Publisher.o_client_draw o));
    TlsSet (Publisher.ca_cert a) (Publisher.cert a) (Publisher.key a);
    Connect (Publisher.broker a) (Publisher.port a);
    LoopStart ].

(** The calls of the consumer's setup, up to the entry into the network
    loop. *)
Definition subscriber_setup_calls (a : Subscriber.args) (o : Subscriber.oracle)
  : list call :=
  [ NewClient "kobayashi-subscriber-" (Lib.randint 0 1000 (Subscriber.o_client_draw o));
    TlsSet (Subscriber.ca_cert a) (Subscriber.cert a) (Subscriber.key a);
    Connect (Subscriber.broker a) (Subscriber.port a);
    LoopForever ].

(** The producer's state when its loop starts. *)
Definition publisher_started (a : Publisher.args) (o : Publisher.oracle) : state :=
  {| st_debug := Publisher.debug a;
     st_log := [tls_line; connecting_line (Publisher.broker a) (Publisher.port a)];
     st_calls := publisher_setup_calls a o;
     st_conn := Disconnected |}.


(** The line an [except] clause around a main loop writes for [e];
    [bye] is the script's text for a keyboard interrupt. *)
Definition exit_lines (bye : string) (e : exn) : list entry :=
  match e with
  | KeyboardInterrupt => [line INFO [Lit bye]]
  | _ => if is_Exception e then [line ERROR [Lit "Error: "; FExn e]] else []
  end.

(** The exception that leaves the [try] statement around a main loop
    when the loop raised [e]: none when a clause caught it. *)
Definition after_handlers (e : exn) : result unit :=
  match e with
  | KeyboardInterrupt => Ok tt
  | _ => if is_Exception e then Ok tt else Raise e
  end.

(** The line the [finally] clause writes when a shutdown call raised. *)
Definition failure_lines {A} (answer : result A) : list entry :=
  match answer with
  | Raise e => [line ERROR [Lit "Disconnect failed: "; FExn e]]
  | _ => []
  end.

(** The producer's shutdown calls: [disconnect] follows [loop_stop]
    only when [loop_stop] returned. *)
Definition publisher_shutdown_calls (o : Publisher.oracle) : list call :=
  match Publisher.o_loop_stop o with
  | Ok _ => [LoopStop; Disconnect]
  | _ => [LoopStop]
  end.

(** What the producer's shutdown logs before its last line. *)
Definition publisher_shutdown_lines (o : Publisher.oracle) : list entry :=
  match Publisher.o_loop_stop o with
  | Ok _ => failure_lines (Publisher.o_disconnect o)
  | other => failure_lines other
  end.

(** Both shutdown calls of the producer end, and not by an interrupt. *)
Definition publisher_shutdown_settles (o : Publisher.oracle) : bool :=
  match Publisher.o_loop_stop o with
  | Ok _ => settles (Publisher.o_disconnect o)
  | other => settles other
  end.

(** How [main] ends when a setup call ([tls_set] or [connect]) does not
    return: exit code 1 when an [except Exception] clause catches what
    it raised. *)
Definition setup_failure (answer : result unit) : result Z :=
  match answer with
  | Raise e => if is_Exception e then Ok 1 else Raise e
  | _ => Running
  end.

(** The line that clause writes; [what] is the clause's text. *)
Definition setup_failure_lines (what : string) (answer : result unit) : list entry :=
  match answer with
  | Raise e => if is_Exception e then [line ERROR [Lit what; FExn e]] else []
  | _ => []
  end.

(** *** What the producer's loop does, cycle by cycle *)

(** The payload of the cycle that carries the counter value [n]. *)
Definition cycle_payload (n : Z) (c : Publisher.cycle) : string :=
  Lib.json_dumps
    (Publisher.create_sample_message n (Publisher.c_now c)
       (Publisher.c_draw_value c) (Publisher.c_draw_status c)).

(** The line written after [publish] returned [status]. *)
Definition report_line (status : Z) (payload : string) : entry :=
  if status =? 0 then line INFO [Lit "Sent message: "; FStr payload]
  else line ERROR [Lit "Failed to send message with status "; FCode status].

(** The calls of the loop entered with counter [n], up to the first one
    that does not return. *)
Fixpoint loop_calls (a : Publisher.args) (n : Z) (cycles : list Publisher.cycle)
  : list call :=
  match cycles with
  | [] => []
  | c :: rest =>
      Publish (Publisher.topic a) (cycle_payload (n + 1) c) 1
      :: match Publisher.c_publish c with
         | Ok _ =>
             Sleep (Publisher.interval a)
             :: match Publisher.c_sleep c with
                | Ok _ => loop_calls a (n + 1) rest
                | _ => []
                end
         | _ => []
         end
  end.

(** The lines of the loop entered with counter [n]. *)
Fixpoint loop_lines (n : Z) (cycles : list Publisher.cycle) : list entry :=
  match cycles with
  | [] => []
  | c :: rest =>
      match Publisher.c_publish c with
      | Ok status =>
          report_line status (cycle_payload (n + 1) c)
          :: match Publisher.c_sleep c with
             | Ok _ => loop_lines (n + 1) rest
             | _ => []
             end
      | _ => []
      end
  end.

(** Every [publish] and every [sleep] of the cycles returns. *)
Definition uneventful (c : Publisher.cycle) : bool :=
  match Publisher.c_publish c, Publisher.c_sleep c with
  | Ok _, Ok _ => true
  | _, _ => false
  end.

(** A call of the producer's shutdown. *)
Definition shutdown_call (c : call) : bool :=
  match c with
  | LoopStop | Disconnect => true
  | _ => false
  end.

(** A call of either script's setup. *)
Definition setup_call (c : call) : bool :=
  match c with
  | NewClient _ _ | TlsSet _ _ _ | Connect _ _ | LoopStart | LoopForever => true
  | _ => false
  end.

(** An exception the [except] clauses around a main loop catch:
    [KeyboardInterrupt] or any [Exception]. *)
Definition caught (e : exn) : bool :=
  match e with
  | KeyboardInterrupt => true
  | _ => is_Exception e
  end.

(** How [main] ends once its main loop raised [e] and the shutdown
    went through. *)
Definition exit_after (e : exn) : result Z :=
  if caught e then Ok 0 else Raise e.

(** The status [publish] returned in a cycle. *)
Definition status_of (c : Publisher.cycle) : Z :=
  match Publisher.c_publish c with
  | Ok status => status
  | _ => 0
  end.

(** Cycles with their counter values, the first one being [n + 1]. *)
Definition numbered (n : Z) (cycles : list Publisher.cycle)
  : list (Z * Publisher.cycle) :=
  combine (count_from (n + 1) (List.length cycles)) cycles.

(** *** What the consumer's callbacks do *)

(** The reason codes that [on_subscribe] warns about, with their
    positions in the list, counted from [idx]. *)
Fixpoint enumerate_from (idx : Z) (l : list Z) : list (Z * Z) :=
  match l with
  | [] => []
  | x :: rest => (idx, x) :: enumerate_from (idx + 1) rest
  end.

Definition subscribe_warning (ic : Z * Z) : entry :=
  line WARNING [Lit "Failed to subscribe to topic #"; FCode (fst ic);
                Lit ", reason code: "; FCode (snd ic)].

Definition refused (ic : Z * Z) : bool := negb (snd ic =? 0).

(** The [subscribe] calls the consumer's loop makes: one for each
    successful connection notification it gets to. *)
Fixpoint subscribe_calls (ud : Subscriber.userdata) (events : list Subscriber.event)
  : list call :=
  match events with
  | [] => []
  | Subscriber.EvConnect reason_code subscribed :: rest =>
      if reason_code =? 0 then
        Subscribe (Subscriber.ud_topic ud) 1
        :: match subscribed with
           | Ok _ => subscribe_calls ud rest
           | _ => []
           end
      else subscribe_calls ud rest
  | _ :: rest => subscribe_calls ud rest
  end.

(** Text of 7-bit characters. *)
Fixpoint ascii7 (s : string) : bool :=
  match s with
  | EmptyString => true
  | String c rest => (N_of_ascii c <? 128)%N && ascii7 rest
  end.




Definition subscriber_userdata (a : Subscriber.args) : Subscriber.userdata :=
  {| Subscriber.ud_topic := Subscriber.topic a;
     Subscriber.ud_broker := Subscriber.broker a |}.

Definition is_message_event (ev : Subscriber.event) : bool :=
  match ev with
  | Subscriber.EvMessage _ _ => true
  | _ => false
  end.



(* ================================================================= *)
(** ** Sample inputs *)

Module Sample.

Definition present : file_status := {| isfile := true; readable := true |}.
Definition locked : file_status := {| isfile := true; readable := false |}.
Definition absent : file_status := {| isfile := false; readable := false |}.

(** A directory listing as a file system: a path that is not listed
    does not exist. *)
Fixpoint fs_of (listing : list (string * file_status)) : filesystem :=
  fun path =>
    match listing with
    | [] => absent
    | (p, s) :: rest => if String.eqb path p then s else fs_of rest path
    end.

Definition pub_args : Publisher.args :=
  {| Publisher.broker := Publisher.DEFAULT_BROKER;
     Publisher.port := Publisher.DEFAULT_PORT;
     Publisher.topic := Publisher.DEFAULT_TOPIC;
     Publisher.interval := Publisher.DEFAULT_INTERVAL;
     Publisher.ca_cert := "certs/ca/ca.crt";
     Publisher.cert := "certs/clients/publisher.crt";
     Publisher.key := "certs/clients/publisher.key";
     Publisher.debug := false |}.

Definition sub_args : Subscriber.args :=
  {| Subscriber.broker := "localhost";
     Subscriber.port := 8883;
     Subscriber.topic := "kobayashi/signals/test";
     Subscriber.ca_cert := "certs/ca/ca.crt";
     Subscriber.cert := "certs/clients/subscriber.crt";
     Subscriber.key := "certs/clients/subscriber.key";
     Subscriber.debug := false |}.

(** The CA certificate is there but unreadable, the client certificate
    is missing. *)
Definition fs_locked_ca : filesystem :=
  fs_of [ ("certs/ca/ca.crt", locked);
          ("certs/clients/publisher.key", present);
          ("certs/clients/subscriber.key", present) ].

(** Only the client certificate is missing. *)
Definition fs_no_cert : filesystem :=
  fs_of [ ("certs/ca/ca.crt", present);
          ("certs/clients/publisher.key", present);
          ("certs/clients/subscriber.key", present) ].

Definition fs_complete : filesystem :=
  fs_of [ ("certs/ca/ca.crt", present);
          ("certs/clients/publisher.crt", present);
          ("certs/clients/publisher.key", present);
          ("certs/clients/subscriber.crt", present);
          ("certs/clients/subscriber.key", present) ].

Definition pub_oracle (fs : filesystem) (cycles : list Publisher.cycle)
  : Publisher.oracle :=
  {| Publisher.o_fs := fs;
     Publisher.o_client_draw := 417;
     Publisher.o_tls_set := Ok tt;
     Publisher.o_connect := Ok tt;
     Publisher.o_cycles := cycles;
     Publisher.o_loop_stop := Ok tt;
     Publisher.o_disconnect := Ok tt |}.

Definition sub_oracle (fs : filesystem) (events : list Subscriber.event)
    (ending : result unit) : Subscriber.oracle :=
  {| Subscriber.o_fs := fs;
     Subscriber.o_client_draw := 88;
     Subscriber.o_tls_set := Ok tt;
     Subscriber.o_connect := Ok tt;
     Subscriber.o_events := events;
     Subscriber.o_loop_end := ending;
     Subscriber.o_disconnect := Ok tt |}.

Definition clock : Lib.struct_time :=
  {| Lib.tm_year := 2025; Lib.tm_mon := 1; Lib.tm_mday := 2;
     Lib.tm_hour := 3; Lib.tm_min := 4; Lib.tm_sec := 5 |}.

Definition record_red : value :=
  PDict [ ("message_id", PInt 7); ("timestamp", PStr "2025-01-02 03:04:00");
          ("value", PInt 93); ("status", PStr "red") ].

Definition record_green : value :=
  PDict [ ("message_id", PInt 8); ("timestamp", PStr "2025-01-02 03:04:10");
          ("value", PInt 12); ("status", PStr "green") ].

Definition record_no_status : value :=
  PDict [ ("message_id", PInt 9); ("timestamp", PStr "2025-01-02 03:04:20");
          ("value", PInt 55) ].

Definition record_no_timestamp_no_status : value :=
  PDict [ ("message_id", PInt 10); ("value", PInt 55) ].

(** A text payload as it arrives. *)
Definition envelope (text : string) : Subscriber.message :=
  {| Subscriber.m_topic := "kobayashi/signals/test";
     Subscriber.m_payload := Json.utf8_encode text |}.

(** Bytes that are no UTF-8 text. *)
Definition garbled : Subscriber.message :=
  {| Subscriber.m_topic := "kobayashi/signals/test";
     Subscriber.m_payload := [Byte.xff; Byte.xfe; Byte.x7b] |}.

(** The first twenty characters of a good payload. *)
Definition truncated : Subscriber.message :=
  envelope (String.substring 0 20 (Lib.json_dumps record_red)).

(** JSON, but an array. *)
Definition array : Subscriber.message :=
  envelope (Lib.json_dumps (PList [PInt 1; PInt 2])).

Definition debugging : state :=
  {| st_debug := true; st_log := []; st_calls := []; st_conn := Connected |}.

(** A cycle in which [publish] reports [status] and the sleep ends as
    [sleep]. *)
Definition cycle_with (status : Z) (sleep : result unit) : Publisher.cycle :=
  {| Publisher.c_now := clock;
     Publisher.c_draw_value := 4242;
     Publisher.c_draw_status := 7;
     Publisher.c_publish := Ok status;
     Publisher.c_sleep := sleep |}.

(** Two cycles, the second publish refused locally, then Ctrl+C during
    the second sleep. *)
Definition interrupted_cycles : list Publisher.cycle :=
  [cycle_with 0 (Ok tt); cycle_with 4 (Raise KeyboardInterrupt)].

(** A broker that is gone at shutdown: [disconnect] raises. *)
Definition pub_oracle_gone (cycles : list Publisher.cycle) : Publisher.oracle :=
  {| Publisher.o_fs := fs_complete;
     Publisher.o_client_draw := 417;
     Publisher.o_tls_set := Ok tt;
     Publisher.o_connect := Ok tt;
     Publisher.o_cycles := cycles;
     Publisher.o_loop_stop := Ok tt;
     Publisher.o_disconnect := Raise (OtherError "not connected") |}.

(** A certificate and key that do not match: [tls_set] raises. *)
Definition pub_oracle_bad_tls : Publisher.oracle :=
  {| Publisher.o_fs := fs_complete;
     Publisher.o_client_draw := 417;
     Publisher.o_tls_set := Raise (OtherError "key values mismatch");
     Publisher.o_connect := Ok tt;
     Publisher.o_cycles := [];
     Publisher.o_loop_stop := Ok tt;
     Publisher.o_disconnect := Ok tt |}.

(** No broker at the address: [connect] raises. *)
Definition pub_oracle_refused : Publisher.oracle :=
  {| Publisher.o_fs := fs_complete;
     Publisher.o_client_draw := 417;
     Publisher.o_tls_set := Ok tt;
     Publisher.o_connect := Raise (OtherError "connection refused");
     Publisher.o_cycles := [];
     Publisher.o_loop_stop := Ok tt;
     Publisher.o_disconnect := Ok tt |}.



Definition sub_oracle_bad_tls : Subscriber.oracle :=
  {| Subscriber.o_fs := fs_complete;
     Subscriber.o_client_draw := 88;
     Subscriber.o_tls_set := Raise (OtherError "key values mismatch");
     Subscriber.o_connect := Ok tt;
     Subscriber.o_events := [];
     Subscriber.o_loop_end := Running;
     Subscriber.o_disconnect := Ok tt |}.

Definition sub_oracle_refused : Subscriber.oracle :=
  {| Subscriber.o_fs := fs_complete;
     Subscriber.o_client_draw := 88;
     Subscriber.o_tls_set := Ok tt;
     Subscriber.o_connect := Raise (OtherError "connection refused");
     Subscriber.o_events := [];
     Subscriber.o_loop_end := Running;
     Subscriber.o_disconnect := Ok tt |}.

End Sample.

(* ================================================================= *)
(** ** Credential check *)

Lemma check_cert_loop_ok fs paths st :
  first_unusable fs paths = None ->
  check_cert_loop fs paths st = (Ok true, st).
Proof.
  unfold first_unusable, usable.
  induction paths as [|p rest IH]; simpl; intro H; [reflexivity|].
  destruct (isfile (fs p)), (readable (fs p)); simpl in *;
    try discriminate; auto.
Qed.

Lemma check_cert_loop_rejects fs paths p st :
  first_unusable fs paths = Some p ->
  check_cert_loop fs paths st = (Ok false, add_log st [rejection fs p]).
Proof.
  unfold first_unusable, usable, rejection.
  induction paths as [|q rest IH]; simpl; intro H; [discriminate|].
  destruct (isfile (fs q)) eqn:Hf, (readable (fs q)) eqn:Hr; simpl in *;
    try (injection H as <-; rewrite Hf; reflexivity); auto.
Qed.

Lemma first_unusable_exists fs paths :
  (exists f, In f paths /\ (isfile (fs f) = false \/ readable (fs f) = false)) ->
  exists p, first_unusable fs paths = Some p.
Proof.
  intros (f & Hin & Hbad). unfold first_unusable.
  destruct (find _ paths) as [p|] eqn:E; [eauto|].
  exfalso. apply (find_none _ _ E) in Hin. unfold usable in Hin.
  destruct Hbad as [H | H]; rewrite H in Hin;
    destruct (isfile (fs f)); discriminate.
Qed.

Lemma publisher_run_rejects a o p :
  first_unusable (Publisher.o_fs o) (publisher_paths a) = Some p ->
  Publisher.run a o =
    (Ok 1, {| st_debug := Publisher.debug a;
              st_log := [rejection (Publisher.o_fs o) p];
              st_calls := [];
              st_conn := Disconnected |}).
Proof.
  intro H. unfold Publisher.run, Publisher.main, bind, check_cert_files.
  destruct (Publisher.debug a); simpl;
    rewrite (check_cert_loop_rejects _ _ _ _ H); reflexivity.
Qed.

Lemma subscriber_run_rejects decode loads a o p :
  first_unusable (Subscriber.o_fs o) (subscriber_paths a) = Some p ->
  Subscriber.run decode loads a o =
    (Ok 1, {| st_debug := Subscriber.debug a;
              st_log := [rejection (Subscriber.o_fs o) p];
              st_calls := [];
              st_conn := Disconnected |}).
Proof.
  intro H. unfold Subscriber.run, Subscriber.main, bind, check_cert_files.
  destruct (Subscriber.debug a); simpl;
    rewrite (check_cert_loop_rejects _ _ _ _ H); reflexivity.
Qed.

(** C1, as the scripts do it.  When one of the three paths is not a
    readable regular file, [check_cert_files] returns [False], the
    process exits with code 1 having made no call on the client (none is
    even created, so no connection is attempted), and the log holds
    exactly one line, about the first path that fails in the order
    ca-cert, cert, key: "Certificate file not found" when that path is
    not a regular file, "Certificate file not readable" when it is one.
    Paths after it are not examined.  The same holds for the
    subscriber. *)
Theorem C1_first_unusable_path_is_reported :
  (forall (a : Publisher.args) (o : Publisher.oracle),
      (exists f, In f (publisher_paths a) /\ unusable (Publisher.o_fs o) f) ->
      exists p,
        first_unusable (Publisher.o_fs o) (publisher_paths a) = Some p /\
        (forall st,
            fst (check_cert_files (Publisher.o_fs o) (Publisher.ca_cert a)
                   (Publisher.cert a) (Publisher.key a) st) = Ok false) /\
        Publisher.run a o =
          (Ok 1, {| st_debug := Publisher.debug a;
                    st_log := [rejection (Publisher.o_fs o) p];
                    st_calls := [];
                    st_conn := Disconnected |}))
  /\
  (forall decode loads (a : Subscriber.args) (o : Subscriber.oracle),
      (exists f, In f (subscriber_paths a) /\ unusable (Subscriber.o_fs o) f) ->
      exists p,
        first_unusable (Subscriber.o_fs o) (subscriber_paths a) = Some p /\
        (forall st,
            fst (check_cert_files (Subscriber.o_fs o) (Subscriber.ca_cert a)
                   (Subscriber.cert a) (Subscriber.key a) st) = Ok false) /\
        Subscriber.run decode loads a o =
          (Ok 1, {| st_debug := Subscriber.debug a;
                    st_log := [rejection (Subscriber.o_fs o) p];
                    st_calls := [];
                    st_conn := Disconnected |})).
Proof.
  split.
  - intros a o Hbad.
    destruct (first_unusable_exists _ _ Hbad) as [p Hp].
    exists p. split; [exact Hp|]. split.
    + intro st. unfold check_cert_files.
      change [Publisher.ca_cert a; Publisher.cert a; Publisher.key a]
        with (publisher_paths a).
      rewrite (check_cert_loop_rejects _ _ _ _ Hp). reflexivity.
    + apply publisher_run_rejects, Hp.
  - intros decode loads a o Hbad.
    destruct (first_unusable_exists _ _ Hbad) as [p Hp].
    exists p. split; [exact Hp|]. split.
    + intro st. unfold check_cert_files.
      change [Subscriber.ca_cert a; Subscriber.cert a; Subscriber.key a]
        with (subscriber_paths a).
      rewrite (check_cert_loop_rejects _ _ _ _ Hp). reflexivity.
    + apply subscriber_run_rejects, Hp.
Qed.

(** C1 at a missing client certificate, the other two files in place
    (the spec's scenario 2): the one log line is "Certificate file not
    found" with the certificate's path. *)
Lemma C1_witness :
  (exists p,
      first_unusable Sample.fs_no_cert (publisher_paths Sample.pub_args) = Some p /\
      (forall st,
          fst (check_cert_files Sample.fs_no_cert "certs/ca/ca.crt"
                 "certs/clients/publisher.crt" "certs/clients/publisher.key" st)
          = Ok false) /\
      Publisher.run Sample.pub_args (Sample.pub_oracle Sample.fs_no_cert []) =
        (Ok 1, {| st_debug := false;
                  st_log := [rejection Sample.fs_no_cert p];
                  st_calls := [];
                  st_conn := Disconnected |}))
  /\
  (exists p,
      first_unusable Sample.fs_no_cert (subscriber_paths Sample.sub_args) = Some p /\
      (forall st,
          fst (check_cert_files Sample.fs_no_cert "certs/ca/ca.crt"
                 "certs/clients/subscriber.crt" "certs/clients/subscriber.key" st)
          = Ok false) /\
      Subscriber.run Json.utf8_decode Json.json_loads Sample.sub_args
        (Sample.sub_oracle Sample.fs_no_cert [] Running) =
        (Ok 1, {| st_debug := false;
                  st_log := [rejection Sample.fs_no_cert p];
                  st_calls := [];
                  st_conn := Disconnected |})).
Proof.
  split.
  - apply (proj1 C1_first_unusable_path_is_reported Sample.pub_args
             (Sample.pub_oracle Sample.fs_no_cert [])).
    exists "certs/clients/publisher.crt". split.
    + simpl. right. left. reflexivity.
    + left. reflexivity.
  - apply (proj2 C1_first_unusable_path_is_reported Json.utf8_decode
             Json.json_loads Sample.sub_args
             (Sample.sub_oracle Sample.fs_no_cert [] Running)).
    exists "certs/clients/subscriber.crt". split.
    + simpl. right. left. reflexivity.
    + left. reflexivity.
Defined.

(** C1 as stated fails: with the CA certificate present but unreadable
    and the client certificate missing, a certificate file does not
    exist, the check fails and the process exits 1, yet the log never
    says "Certificate file not found": the check stopped at the CA
    certificate. *)
Lemma C1_counterexample :
  let run := Publisher.run Sample.pub_args
               (Sample.pub_oracle Sample.fs_locked_ca []) in
  isfile (Sample.fs_locked_ca (Publisher.cert Sample.pub_args)) = false /\
  fst run = Ok 1 /\
  st_log (snd run) =
    [line ERROR [Lit "Certificate file not readable: "; FStr "certs/ca/ca.crt"]] /\
  log_contains "Certificate file not found" (st_log (snd run)) = false.
Proof. repeat split; reflexivity. Qed.

(* ================================================================= *)
(** ** The sample message *)

Lemma randint_range a b draw : a <= b -> a <= Lib.randint a b draw <= b.
Proof.
  intro H. unfold Lib.randint, Lib.randbelow.
  pose proof (Z.mod_pos_bound (Z.of_N draw) (b + 1 - a)). lia.
Qed.

Lemma choice_in seq draw : seq <> [] -> In (Lib.choice seq draw) seq.
Proof.
  intro H. unfold Lib.choice, Lib.randbelow. apply nth_In.
  assert (0 < Z.of_nat (List.length seq)) by (destruct seq; simpl; [congruence | lia]).
  pose proof (Z.mod_pos_bound (Z.of_N draw) (Z.of_nat (List.length seq))). lia.
Qed.

(** C3.  Whatever the clock and the random draws, the dictionary
    [create_sample_message] builds has exactly the keys [message_id],
    [timestamp], [value], [status], in that order; its [value] is an
    integer between 0 and 100 and its [status] is one of "green",
    "yellow", "red". *)
Theorem C3_sample_message_shape :
  forall (message_count : Z) (now : Lib.struct_time) (draw_value draw_status : N),
  exists (v : Z) (s : string),
    Publisher.create_sample_message message_count now draw_value draw_status =
      PDict [ ("message_id", PInt message_count);
              ("timestamp", PStr (Lib.strftime now));
              ("value", PInt v);
              ("status", PStr s) ]
    /\ 0 <= v <= 100
    /\ In s ["green"; "yellow"; "red"].
Proof.
  intros. exists (Lib.randint 0 100 draw_value),
                 (Lib.choice Publisher.statuses draw_status).
  split; [reflexivity|]. split.
  - apply randint_range. lia.
  - apply (choice_in Publisher.statuses). discriminate.
Qed.

(* ================================================================= *)
(** ** The subscriber's connection callback *)

(** C7, as the script does it.  With [reason_code == 0] the callback
    logs the connection and makes exactly one call on the client,
    [subscribe(topic, qos=1)] for the configured topic (followed by a
    log line when the call returns); with any other code it makes no
    call and logs the code at error level.  In both cases the connection
    state is left as it was: the script keeps none. *)
Theorem C7_on_connect_subscribes_once :
  forall (ud : Subscriber.userdata) (reason_code : Z) (subscribed : result unit)
         (st : state),
    let out := Subscriber.on_connect ud reason_code subscribed st in
    st_conn (snd out) = st_conn st /\
    (reason_code = 0 ->
       st_calls (snd out)
       = (st_calls st ++ [Subscribe (Subscriber.ud_topic ud) 1])%list /\
       st_log (snd out)
       = (st_log st
          ++ [line INFO [Lit "Connected to MQTT Broker: ";
                         FStr (Subscriber.ud_broker ud); Lit " using TLS/SSL"]]
          ++ match subscribed with
             | Ok _ => [line INFO [Lit "Subscribed to topic: ";
                                   FStr (Subscriber.ud_topic ud)]]
             | _ => []
             end)%list) /\
    (reason_code <> 0 ->
       out = (Ok tt,
              add_log st [line ERROR [Lit "Failed to connect, return code: ";
                                      FCode reason_code]])).
Proof.
  intros ud rc sub [dbg lg cs cn]. unfold Subscriber.on_connect. repeat split.
  - destruct (rc =? 0); [destruct sub as [[]| |]|]; reflexivity.
  - subst rc. destruct sub as [[]| |]; reflexivity.
  - subst rc. destruct sub as [[]| |]; cbn; rewrite <- ?List.app_assoc; reflexivity.
  - intro H. apply Z.eqb_neq in H. rewrite H. reflexivity.
Qed.

Lemma C7_witness :
  let ud := {| Subscriber.ud_topic := "kobayashi/signals/test";
               Subscriber.ud_broker := "localhost" |} in
  (st_calls (snd (Subscriber.on_connect ud 0 (Ok tt) initial_state))
   = [Subscribe "kobayashi/signals/test" 1])
  /\
  (Subscriber.on_connect ud 5 (Ok tt) initial_state
   = (Ok tt, add_log initial_state
               [line ERROR [Lit "Failed to connect, return code: "; FCode 5]])).
Proof.
  intro ud.
  pose proof (C7_on_connect_subscribes_once ud 0 (Ok tt) initial_state) as H0.
  pose proof (C7_on_connect_subscribes_once ud 5 (Ok tt) initial_state) as H5.
  split.
  - exact (proj1 (proj1 (proj2 H0) eq_refl)).
  - apply (proj2 (proj2 H5)). discriminate.
Defined.

(** C7 as stated fails: after a successful connection callback the
    state is not [Connected], and after a refused one it is not
    [Failed]; the callback leaves the state where it was. *)
Lemma C7_counterexample :
  let ud := {| Subscriber.ud_topic := "kobayashi/signals/test";
               Subscriber.ud_broker := "localhost" |} in
  st_conn (snd (Subscriber.on_connect ud 0 (Ok tt) initial_state)) <> Connected /\
  st_conn (snd (Subscriber.on_connect ud 5 (Ok tt) initial_state)) <> Failed.
Proof. split; discriminate. Qed.

(* ================================================================= *)
(** ** The subscriber's message callback *)

Section OnMessage.

Variable decode : list Byte.byte -> option string.
Variable loads : string -> option value.

Let on_message := Subscriber.on_message decode loads.

(** A callback that returns lets the network loop go on to the next
    event. *)
Lemma deliver_step ud ev rest ending st st' :
  Subscriber.callback decode loads ud ev st = (Ok tt, st') ->
  Subscriber.deliver decode loads ud (ev :: rest) ending st
  = Subscriber.deliver decode loads ud rest ending st'.
Proof. intro H. simpl. unfold bind. rewrite H. reflexivity. Qed.

Ltac open_handler :=
  unfold Subscriber.on_message_except, Subscriber.on_message_body,
    Subscriber.local, try_except, bind, lift, log, ret, raise, getitem,
    add_log, debug_line, line; cbn.

Ltac same_state := open_handler; rewrite <- ?List.app_assoc; reflexivity.

Lemma on_message_not_text msg now st :
  decode (Subscriber.m_payload msg) = None ->
  on_message msg now st =
    (Ok tt,
     add_log st
       (line ERROR [Lit "Error processing message: "; FExn UnicodeDecodeError]
        :: debug_line (st_debug st)
             [Lit "Raw message: "; FBytes (Subscriber.m_payload msg)])).
Proof.
  intro H. unfold on_message, Subscriber.on_message. rewrite H.
  destruct st as [dbg lg cs cn]. destruct dbg; same_state.
Qed.

Lemma on_message_not_json msg now st s :
  decode (Subscriber.m_payload msg) = Some s ->
  loads s = None ->
  on_message msg now st =
    (Ok tt,
     add_log st
       (line ERROR [Lit "Error decoding JSON message"]
        :: debug_line (st_debug st) [Lit "Raw message: "; FStr s])).
Proof.
  intros H1 H2. unfold on_message, Subscriber.on_message. rewrite H1, H2.
  destruct st as [dbg lg cs cn]. destruct dbg; same_state.
Qed.

Lemma on_message_not_record msg now st s v :
  decode (Subscriber.m_payload msg) = Some s ->
  loads s = Some v ->
  is_record v = false ->
  on_message msg now st =
    (Ok tt,
     add_log st
       (header msg
        :: line ERROR [Lit "Error processing message: "; FExn TypeError]
        :: debug_line (st_debug st)
             [Lit "Raw message: "; FBytes (Subscriber.m_payload msg)])).
Proof.
  intros H1 H2 H3. unfold on_message, Subscriber.on_message. rewrite H1, H2.
  destruct st as [dbg lg cs cn].
  destruct v; try discriminate; destruct dbg; same_state.
Qed.

(** A dictionary that lacks a required field: the lines of the fields
    read before it, then the error naming it. *)
Lemma on_message_missing msg now st s items k :
  decode (Subscriber.m_payload msg) = Some s ->
  loads s = Some (PDict items) ->
  first_missing items = Some k ->
  on_message msg now st =
    (Ok tt,
     add_log st
       (header msg
        :: flat_map (field_lines items (Lib.strftime now))
             (before k Subscriber.required_fields)
        ++ missing_key_line k
        :: debug_line (st_debug st) [Lit "Message content: "; FVal (PDict items)])).
Proof.
  intros H1 H2 H3. unfold on_message, Subscriber.on_message. rewrite H1, H2.
  destruct st as [dbg lg cs cn].
  unfold first_missing, Subscriber.required_fields in H3. simpl in H3.
  unfold field_lines, header, missing_key_line. open_handler.
  destruct (dict_get items "message_id") eqn:E1;
    [|injection H3 as <-; cbn; destruct dbg; same_state].
  destruct (dict_get items "timestamp") eqn:E2;
    [|injection H3 as <-; cbn; rewrite ?E1; destruct dbg; same_state].
  destruct (dict_get items "value") eqn:E3;
    [|injection H3 as <-; cbn; rewrite ?E1, ?E2; destruct dbg; same_state].
  destruct (dict_get items "status") eqn:E4;
    [discriminate
    |injection H3 as <-; cbn; rewrite ?E1, ?E2, ?E3; destruct dbg; same_state].
Qed.

(** A dictionary with the four fields. *)
Lemma on_message_complete msg now st s items v1 v2 v3 v4 :
  decode (Subscriber.m_payload msg) = Some s ->
  loads s = Some (PDict items) ->
  dict_get items "message_id" = Some v1 ->
  dict_get items "timestamp" = Some v2 ->
  dict_get items "value" = Some v3 ->
  dict_get items "status" = Some v4 ->
  on_message msg now st =
    (Ok tt,
     add_log st
       ([ header msg;
          line INFO [Lit "Message ID: "; FVal v1];
          line INFO [Lit "Message timestamp: "; FVal v2];
          line INFO [Lit "Received at: "; FStr (Lib.strftime now)];
          line INFO [Lit "Value: "; FVal v3];
          line INFO [Lit "Status: "; FVal v4] ]
        ++ (if eq_str v4 "red" then [alert_line] else []))).
Proof.
  intros H1 H2 E1 E2 E3 E4. unfold on_message, Subscriber.on_message.
  rewrite H1, H2. destruct st as [dbg lg cs cn].
  unfold header, alert_line. open_handler. rewrite E1, E2, E3, E4.
  destruct (eq_str v4 "red"); same_state.
Qed.

End OnMessage.

(** C4.  When the payload is not UTF-8 text, or is text that is not
    JSON, or is JSON that is not an object, [on_message] returns
    normally; the only thing it changes is the log, which gains an
    error line (after the header line when the text did parse, and
    followed by a debug line when debugging is on); the calls made on
    the client and the connection state are as before, and the network
    loop goes on to its next event. *)
Theorem C4_malformed_payload_is_logged :
  forall (decode : list Byte.byte -> option string)
         (loads : string -> option value)
         (msg : Subscriber.message) (now : Lib.struct_time) (st : state),
    (decode (Subscriber.m_payload msg) = None
     \/ exists s, decode (Subscriber.m_payload msg) = Some s
                  /\ (loads s = None
                      \/ exists v, loads s = Some v /\ is_record v = false)) ->
    exists new,
      Subscriber.on_message decode loads msg now st = (Ok tt, add_log st new)
      /\ ( (decode (Subscriber.m_payload msg) = None
            /\ new = line ERROR [Lit "Error processing message: ";
                                 FExn UnicodeDecodeError]
                     :: debug_line (st_debug st)
                          [Lit "Raw message: "; FBytes (Subscriber.m_payload msg)])
           \/ (exists s, decode (Subscriber.m_payload msg) = Some s
                 /\ loads s = None
                 /\ new = line ERROR [Lit "Error decoding JSON message"]
                          :: debug_line (st_debug st) [Lit "Raw message: "; FStr s])
           \/ (exists s v, decode (Subscriber.m_payload msg) = Some s
                 /\ loads s = Some v
                 /\ new = header msg
                          :: line ERROR [Lit "Error processing message: ";
                                         FExn TypeError]
                          :: debug_line (st_debug st)
                               [Lit "Raw message: ";
                                FBytes (Subscriber.m_payload msg)]) )
      /\ List.Exists (fun e => e_level e = ERROR) new
      /\ st_calls (add_log st new) = st_calls st
      /\ st_conn (add_log st new) = st_conn st
      /\ (forall ud rest ending,
             Subscriber.deliver decode loads ud
               (Subscriber.EvMessage msg now :: rest) ending st
             = Subscriber.deliver decode loads ud rest ending (add_log st new)).
Proof.
  intros decode loads msg now st H.
  assert (Hall : forall new,
             Subscriber.on_message decode loads msg now st = (Ok tt, add_log st new) ->
             st_calls (add_log st new) = st_calls st
             /\ st_conn (add_log st new) = st_conn st
             /\ (forall ud rest ending,
                    Subscriber.deliver decode loads ud
                      (Subscriber.EvMessage msg now :: rest) ending st
                    = Subscriber.deliver decode loads ud rest ending (add_log st new))).
  { intros new E. repeat split. intros. apply deliver_step. exact E. }
  destruct H as [H | (s & Hs & [H | (v & Hv & Hr)])].
  - eexists. split; [apply (on_message_not_text _ _ _ _ _ H)|].
    split; [left; split; [exact H | reflexivity]|].
    split; [left; reflexivity|].
    apply Hall, (on_message_not_text _ _ _ _ _ H).
  - eexists. split; [apply (on_message_not_json _ _ _ _ _ _ Hs H)|].
    split; [right; left; exists s; repeat split; assumption|].
    split; [left; reflexivity|].
    apply Hall, (on_message_not_json _ _ _ _ _ _ Hs H).
  - eexists. split; [apply (on_message_not_record _ _ _ _ _ _ _ Hs Hv Hr)|].
    split; [right; right; exists s, v; repeat split; assumption|].
    split; [right; left; reflexivity|].
    apply Hall, (on_message_not_record _ _ _ _ _ _ _ Hs Hv Hr).
Qed.

(** C4 at three payloads: bytes that are no UTF-8 text, a payload cut
    after twenty characters, and a JSON array. *)
Lemma C4_witness :
  (exists new,
      Subscriber.on_message Json.utf8_decode Json.json_loads
        Sample.garbled Sample.clock Sample.debugging
      = (Ok tt, add_log Sample.debugging new)
      /\ List.Exists (fun e => e_level e = ERROR) new)
  /\ (exists new,
         Subscriber.on_message Json.utf8_decode Json.json_loads
           Sample.truncated Sample.clock initial_state
         = (Ok tt, add_log initial_state new)
         /\ List.Exists (fun e => e_level e = ERROR) new)
  /\ (exists new,
         Subscriber.on_message Json.utf8_decode Json.json_loads
           Sample.array Sample.clock initial_state
         = (Ok tt, add_log initial_state new)
         /\ List.Exists (fun e => e_level e = ERROR) new).
Proof.
  split; [|split].
  - destruct (C4_malformed_payload_is_logged Json.utf8_decode Json.json_loads
                Sample.garbled Sample.clock Sample.debugging)
      as (new & E & _ & X & _).
    + left. vm_compute. reflexivity.
    + exists new. split; assumption.
  - destruct (C4_malformed_payload_is_logged Json.utf8_decode Json.json_loads
                Sample.truncated Sample.clock initial_state)
      as (new & E & _ & X & _).
    + right. eexists. split; [vm_compute; reflexivity|].
      left. vm_compute. reflexivity.
    + exists new. split; assumption.
  - destruct (C4_malformed_payload_is_logged Json.utf8_decode Json.json_loads
                Sample.array Sample.clock initial_state)
      as (new & E & _ & X & _).
    + right. eexists. split; [vm_compute; reflexivity|].
      right. eexists. split; [vm_compute; reflexivity | reflexivity].
    + exists new. split; assumption.
Defined.

Lemma first_missing_some items :
  (exists k, In k Subscriber.required_fields /\ dict_get items k = None) ->
  exists k, first_missing items = Some k.
Proof.
  intros (k & Hin & Hk). unfold first_missing.
  destruct (find _ Subscriber.required_fields) as [k'|] eqn:E; [eauto|].
  exfalso. apply (find_none _ _ E) in Hin. rewrite Hk in Hin. discriminate.
Qed.

Lemma first_missing_is_missing items k :
  first_missing items = Some k ->
  In k Subscriber.required_fields /\ dict_get items k = None.
Proof.
  unfold first_missing. intro H. apply find_some in H. destruct H as [Hin Hk].
  split; [exact Hin|]. destruct (dict_get items k); [discriminate | reflexivity].
Qed.

Lemma field_lines_info items rt fields :
  forallb is_info (flat_map (field_lines items rt) fields) = true.
Proof.
  induction fields as [|f rest IH]; [reflexivity|].
  simpl. rewrite forallb_app, IH, andb_true_r.
  unfold field_lines. destruct (dict_get items f); [|reflexivity].
  destruct (String.eqb f "timestamp"); reflexivity.
Qed.

(** C5.  When the payload parses to a dictionary that lacks a required
    field, [on_message] returns normally and changes nothing but the
    log: after info lines only, it writes the error line "Missing
    expected key in message: " with the [KeyError] of a field that is
    required and absent; nothing follows but the debug line (no alert);
    the network loop goes on to its next event. *)
Theorem C5_missing_field_is_reported :
  forall (decode : list Byte.byte -> option string)
         (loads : string -> option value)
         (msg : Subscriber.message) (now : Lib.struct_time) (st : state)
         (s : string) (items : list (string * value)),
    decode (Subscriber.m_payload msg) = Some s ->
    loads s = Some (PDict items) ->
    (exists k, In k Subscriber.required_fields /\ dict_get items k = None) ->
    exists (k : string) (infos : list entry),
      In k Subscriber.required_fields
      /\ dict_get items k = None
      /\ forallb is_info infos = true
      /\ Subscriber.on_message decode loads msg now st
         = (Ok tt,
            add_log st
              (infos
               ++ line ERROR [Lit "Missing expected key in message: ";
                              FExn (KeyError k)]
               :: debug_line (st_debug st)
                    [Lit "Message content: "; FVal (PDict items)]))
      /\ (forall ud rest ending,
             Subscriber.deliver decode loads ud
               (Subscriber.EvMessage msg now :: rest) ending st
             = Subscriber.deliver decode loads ud rest ending
                 (snd (Subscriber.on_message decode loads msg now st))).
Proof.
  intros decode loads msg now st s items Hd Hl Hmiss.
  destruct (first_missing_some _ Hmiss) as [k Hk].
  pose proof (on_message_missing decode loads msg now st s items k Hd Hl Hk) as E.
  destruct (first_missing_is_missing _ _ Hk) as [Hin Hnone].
  exists k, (header msg :: flat_map (field_lines items (Lib.strftime now))
                             (before k Subscriber.required_fields)).
  split; [exact Hin|]. split; [exact Hnone|]. split; [|split].
  - simpl. apply field_lines_info.
  - exact E.
  - intros. apply deliver_step. simpl. rewrite E. reflexivity.
Qed.

(** C5 at a record without [status] (the spec's scenario 4). *)
Lemma C5_witness :
  exists (k : string) (infos : list entry),
    In k Subscriber.required_fields
    /\ dict_get [ ("message_id", PInt 9);
                  ("timestamp", PStr "2025-01-02 03:04:20");
                  ("value", PInt 55) ] k = None
    /\ forallb is_info infos = true
    /\ Subscriber.on_message Json.utf8_decode Json.json_loads
         (Sample.envelope (Lib.json_dumps Sample.record_no_status))
         Sample.clock initial_state
       = (Ok tt,
          add_log initial_state
            (infos
             ++ line ERROR [Lit "Missing expected key in message: ";
                            FExn (KeyError k)]
             :: debug_line false
                  [Lit "Message content: "; FVal Sample.record_no_status])).
Proof.
  destruct (C5_missing_field_is_reported Json.utf8_decode Json.json_loads
              (Sample.envelope (Lib.json_dumps Sample.record_no_status))
              Sample.clock initial_state
              (Lib.json_dumps Sample.record_no_status)
              [ ("message_id", PInt 9);
                ("timestamp", PStr "2025-01-02 03:04:20");
                ("value", PInt 55) ])
    as (k & infos & H1 & H2 & H3 & H4 & _).
  - vm_compute. reflexivity.
  - vm_compute. reflexivity.
  - exists "status". split; [simpl; tauto | reflexivity].
  - exists k, infos. repeat split; assumption.
Defined.

Lemma eq_str_red v : eq_str v "red" = true <-> v = PStr "red".
Proof.
  split.
  - destruct v; simpl; try discriminate. intro H.
    apply String.eqb_eq in H. congruence.
  - intros ->. reflexivity.
Qed.

(** C6.  When the payload parses to a dictionary with the four required
    fields, [on_message] returns normally and changes nothing but the
    log (no call on the client, nothing stored or forwarded): it writes
    the header, the message id, the message's timestamp, the time of
    receipt, the value and the status at info level, and then the
    warning "ALERT: Red status detected!" once, exactly when the status
    is the string "red". *)
Theorem C6_valid_record_is_logged :
  forall (decode : list Byte.byte -> option string)
         (loads : string -> option value)
         (msg : Subscriber.message) (now : Lib.struct_time) (st : state)
         (s : string) (items : list (string * value)) (v1 v2 v3 v4 : value),
    decode (Subscriber.m_payload msg) = Some s ->
    loads s = Some (PDict items) ->
    dict_get items "message_id" = Some v1 ->
    dict_get items "timestamp" = Some v2 ->
    dict_get items "value" = Some v3 ->
    dict_get items "status" = Some v4 ->
    let contents :=
      [ header msg;
        line INFO [Lit "Message ID: "; FVal v1];
        line INFO [Lit "Message timestamp: "; FVal v2];
        line INFO [Lit "Received at: "; FStr (Lib.strftime now)];
        line INFO [Lit "Value: "; FVal v3];
        line INFO [Lit "Status: "; FVal v4] ] in
    (v4 = PStr "red" ->
       Subscriber.on_message decode loads msg now st
       = (Ok tt, add_log st (contents ++ [alert_line])))
    /\ (v4 <> PStr "red" ->
          Subscriber.on_message decode loads msg now st
          = (Ok tt, add_log st contents)).
Proof.
  intros decode loads msg now st s items v1 v2 v3 v4 Hd Hl E1 E2 E3 E4 contents.
  pose proof (on_message_complete decode loads msg now st s items v1 v2 v3 v4
                Hd Hl E1 E2 E3 E4) as E.
  split; intro Hred.
  - rewrite E. apply eq_str_red in Hred. rewrite Hred. reflexivity.
  - rewrite E. destruct (eq_str v4 "red") eqn:R.
    + apply eq_str_red in R. contradiction.
    + reflexivity.
Qed.

(** C6 at a red record (the spec's scenario 5) and at a green one. *)
Lemma C6_witness :
  st_log (snd (Subscriber.on_message Json.utf8_decode Json.json_loads
                 (Sample.envelope (Lib.json_dumps Sample.record_red))
                 Sample.clock initial_state))
  = [ header (Sample.envelope (Lib.json_dumps Sample.record_red));
      line INFO [Lit "Message ID: "; FVal (PInt 7)];
      line INFO [Lit "Message timestamp: "; FVal (PStr "2025-01-02 03:04:00")];
      line INFO [Lit "Received at: "; FStr "2025-01-02 03:04:05"];
      line INFO [Lit "Value: "; FVal (PInt 93)];
      line INFO [Lit "Status: "; FVal (PStr "red")];
      alert_line ]
  /\
  st_log (snd (Subscriber.on_message Json.utf8_decode Json.json_loads
                 (Sample.envelope (Lib.json_dumps Sample.record_green))
                 Sample.clock initial_state))
  = [ header (Sample.envelope (Lib.json_dumps Sample.record_green));
      line INFO [Lit "Message ID: "; FVal (PInt 8)];
      line INFO [Lit "Message timestamp: "; FVal (PStr "2025-01-02 03:04:10")];
      line INFO [Lit "Received at: "; FStr "2025-01-02 03:04:05"];
      line INFO [Lit "Value: "; FVal (PInt 12)];
      line INFO [Lit "Status: "; FVal (PStr "green")] ].
Proof.
  split.
  - rewrite (proj1 (C6_valid_record_is_logged Json.utf8_decode Json.json_loads
                      (Sample.envelope (Lib.json_dumps Sample.record_red))
                      Sample.clock initial_state
                      (Lib.json_dumps Sample.record_red)
                      [ ("message_id", PInt 7);
                        ("timestamp", PStr "2025-01-02 03:04:00");
                        ("value", PInt 93); ("status", PStr "red") ]
                      (PInt 7) (PStr "2025-01-02 03:04:00") (PInt 93) (PStr "red")
                      ltac:(vm_compute; reflexivity) ltac:(vm_compute; reflexivity)
                      eq_refl eq_refl eq_refl eq_refl) eq_refl).
    reflexivity.
  - rewrite (proj2 (C6_valid_record_is_logged Json.utf8_decode Json.json_loads
                      (Sample.envelope (Lib.json_dumps Sample.record_green))
                      Sample.clock initial_state
                      (Lib.json_dumps Sample.record_green)
                      [ ("message_id", PInt 8);
                        ("timestamp", PStr "2025-01-02 03:04:10");
                        ("value", PInt 12); ("status", PStr "green") ]
                      (PInt 8) (PStr "2025-01-02 03:04:10") (PInt 12) (PStr "green")
                      ltac:(vm_compute; reflexivity) ltac:(vm_compute; reflexivity)
                      eq_refl eq_refl eq_refl eq_refl)
                   ltac:(discriminate)).
    reflexivity.
Defined.

Lemma first_missing_cases items k :
  first_missing items = Some k ->
  (k = "message_id" /\ dict_get items "message_id" = None)
  \/ (k = "timestamp" /\ dict_get items "message_id" <> None
      /\ dict_get items "timestamp" = None)
  \/ (k = "value" /\ dict_get items "message_id" <> None
      /\ dict_get items "timestamp" <> None /\ dict_get items "value" = None)
  \/ (k = "status" /\ dict_get items "message_id" <> None
      /\ dict_get items "timestamp" <> None /\ dict_get items "value" <> None
      /\ dict_get items "status" = None).
Proof.
  unfold first_missing, Subscriber.required_fields. simpl.
  destruct (dict_get items "message_id");
    [|intro H; injection H as <-; left; split; reflexivity].
  destruct (dict_get items "timestamp");
    [|intro H; injection H as <-; right; left; repeat split; congruence].
  destruct (dict_get items "value");
    [|intro H; injection H as <-; right; right; left; repeat split; congruence].
  destruct (dict_get items "status");
    [discriminate
    |intro H; injection H as <-; right; right; right; repeat split; congruence].
Qed.

Lemma first_missing_agree items items' k :
  first_missing items = Some k ->
  (forall f, In f (before k Subscriber.required_fields) ->
             dict_get items' f = dict_get items f) ->
  dict_get items' k = None ->
  first_missing items' = Some k
  /\ forall rt,
       flat_map (field_lines items' rt) (before k Subscriber.required_fields)
       = flat_map (field_lines items rt) (before k Subscriber.required_fields).
Proof.
  intros H Hagree Hk.
  destruct (first_missing_cases _ _ H)
    as [(-> & A) | [(-> & A & B) | [(-> & A & B & C) | (-> & A & B & C & D)]]];
    unfold first_missing, field_lines; simpl in *.
  - rewrite Hk. split; reflexivity.
  - rewrite (Hagree "message_id") by tauto. rewrite Hk.
    destruct (dict_get items "message_id"); [|congruence]. split; reflexivity.
  - rewrite (Hagree "message_id"), (Hagree "timestamp") by tauto. rewrite Hk.
    destruct (dict_get items "message_id"); [|congruence].
    destruct (dict_get items "timestamp"); [|congruence]. split; reflexivity.
  - rewrite (Hagree "message_id"), (Hagree "timestamp"), (Hagree "value") by tauto.
    rewrite Hk.
    destruct (dict_get items "message_id"); [|congruence].
    destruct (dict_get items "timestamp"); [|congruence].
    destruct (dict_get items "value"); [|congruence]. split; reflexivity.
Qed.

(** C10.  In [on_message] the presence of the required fields is
    checked by reading them while logging, in the order [message_id],
    [timestamp], [value], [status].  For a dictionary whose first
    missing field in that order is [k]: the header and the info lines
    of the fields before [k] are already in the log when the error
    naming [k] is written; no other field is reported missing; and the
    fields after [k] play no part, since a dictionary that agrees
    with this one up to [k] gives the same result. *)
Theorem C10_validation_short_circuits :
  forall (decode : list Byte.byte -> option string)
         (loads : string -> option value)
         (msg : Subscriber.message) (now : Lib.struct_time) (st : state)
         (s : string) (items : list (string * value)) (k : string),
    decode (Subscriber.m_payload msg) = Some s ->
    loads s = Some (PDict items) ->
    first_missing items = Some k ->
    let new :=
      (header msg
       :: flat_map (field_lines items (Lib.strftime now))
            (before k Subscriber.required_fields)
       ++ missing_key_line k
       :: debug_line (st_debug st) [Lit "Message content: "; FVal (PDict items)])%list
    in
    Subscriber.on_message decode loads msg now st = (Ok tt, add_log st new)
    /\ (forall k', In (missing_key_line k') new -> k' = k)
    /\ (forall (loads' : string -> option value) (items' : list (string * value)),
           loads' s = Some (PDict items') ->
           (forall f, In f (before k Subscriber.required_fields) ->
                      dict_get items' f = dict_get items f) ->
           dict_get items' k = None ->
           st_debug st = false ->
           Subscriber.on_message decode loads' msg now st
           = Subscriber.on_message decode loads msg now st).
Proof.
  intros decode loads msg now st s items k Hd Hl Hk new.
  pose proof (on_message_missing decode loads msg now st s items k Hd Hl Hk) as E.
  split; [exact E|]. split.
  - intros k' [H | H]; [discriminate|].
    apply in_app_or in H. destruct H as [H | [H | H]].
    + pose proof (field_lines_info items (Lib.strftime now)
                    (before k Subscriber.required_fields)) as I.
      rewrite forallb_forall in I. apply I in H. discriminate.
    + injection H as H. symmetry. exact H.
    + unfold debug_line in H. destruct (st_debug st); simpl in H;
        [destruct H as [H | []]; discriminate | contradiction].
  - intros loads' items' Hl' Hagree Hnone Hdbg.
    destruct (first_missing_agree _ _ _ Hk Hagree Hnone) as [Hk' Hsame].
    rewrite E.
    rewrite (on_message_missing decode loads' msg now st s items' k Hd Hl' Hk').
    subst new. rewrite Hsame, Hdbg. reflexivity.
Qed.

(** C10 at a record that lacks both [timestamp] and [status]: the
    message id is logged, [timestamp] is the field reported, and
    [status] is never looked at. *)
Lemma C10_witness :
  Subscriber.on_message Json.utf8_decode Json.json_loads
    (Sample.envelope (Lib.json_dumps Sample.record_no_timestamp_no_status))
    Sample.clock initial_state
  = (Ok tt,
     add_log initial_state
       [ header (Sample.envelope
                   (Lib.json_dumps Sample.record_no_timestamp_no_status));
         line INFO [Lit "Message ID: "; FVal (PInt 10)];
         missing_key_line "timestamp" ]).
Proof.
  exact (proj1 (C10_validation_short_circuits Json.utf8_decode Json.json_loads
                  (Sample.envelope
                     (Lib.json_dumps Sample.record_no_timestamp_no_status))
                  Sample.clock initial_state
                  (Lib.json_dumps Sample.record_no_timestamp_no_status)
                  [ ("message_id", PInt 10); ("value", PInt 55) ]
                  "timestamp"
                  ltac:(vm_compute; reflexivity) ltac:(vm_compute; reflexivity)
                  eq_refl)).
Defined.

(* ================================================================= *)
(** ** Writing a message and reading it back *)

Lemma append_assoc (a b c : string) : ((a ++ b) ++ c = a ++ (b ++ c))%string.
Proof. induction a as [|x a IH]; simpl; [reflexivity | rewrite IH; reflexivity]. Qed.

Lemma plain_app a b : plain (a ++ b) = plain a && plain b.
Proof.
  induction a as [|x a IH]; simpl; [reflexivity|].
  rewrite IH, andb_assoc. reflexivity.
Qed.

Lemma plain_char_spec c :
  plain_char c = true ->
  (32 <= N_of_ascii c <= 126 /\ N_of_ascii c <> 34 /\ N_of_ascii c <> 92)%N.
Proof.
  unfold plain_char. intro H.
  repeat (apply andb_prop in H; destruct H as [H ?]).
  repeat match goal with
         | X : negb (_ =? _)%N = true |- _ =>
             apply negb_true_iff, N.eqb_neq in X
         | X : (_ <=? _)%N = true |- _ => apply N.leb_le in X
         end.
  lia.
Qed.

Lemma escape_ascii_plain c : plain_char c = true -> Lib.escape_ascii c = String c "".
Proof.
  intro H. apply plain_char_spec in H. destruct H as (R & Q & B).
  unfold Lib.escape_ascii.
  repeat match goal with
         | |- context [(N_of_ascii c =? ?k)%N] =>
             destruct (N.eqb_spec (N_of_ascii c) k); [lia|]
         end.
  destruct (N.leb_spec 32 (N_of_ascii c)); [|lia].
  destruct (N.leb_spec (N_of_ascii c) 126); [|lia].
  reflexivity.
Qed.

Lemma escape_text_plain s : plain s = true -> Lib.escape_text s = s.
Proof.
  induction s as [|c s IH]; [reflexivity|].
  simpl plain. intro H. apply andb_prop in H. destruct H as [Hc Hs].
  pose proof (plain_char_spec _ Hc) as (R & _).
  cbn [Lib.escape_text].
  destruct (N.ltb_spec (N_of_ascii c) 128); [|lia].
  rewrite (escape_ascii_plain _ Hc), (IH Hs). reflexivity.
Qed.

Lemma dumps_str_plain s :
  plain s = true -> Lib.dumps_str s = (Lib.quote ++ s ++ Lib.quote)%string.
Proof. intro H. unfold Lib.dumps_str. rewrite (escape_text_plain _ H). reflexivity. Qed.

Lemma parse_chars_plain s rest :
  plain s = true ->
  Json.parse_chars (s ++ String (ascii_of_N 34) rest) = Some (s, rest).
Proof.
  induction s as [|c s IH]; [reflexivity|].
  simpl plain. intro H. apply andb_prop in H. destruct H as [Hc Hs].
  pose proof (plain_char_spec _ Hc) as (R & Q & B).
  cbn [String.append Json.parse_chars].
  destruct (N.eqb_spec (N_of_ascii c) 34); [lia|].
  destruct (N.eqb_spec (N_of_ascii c) 92); [lia|].
  destruct (N.ltb_spec (N_of_ascii c) 32); [lia|].
  rewrite (IH Hs). reflexivity.
Qed.

Lemma plain_numeral d : plain (NilEmpty.string_of_uint d) = true.
Proof. induction d; cbn [NilEmpty.string_of_uint plain]; try rewrite IHd; reflexivity. Qed.

Lemma plain_dec n : plain (Lib.dec n) = true.
Proof.
  unfold Lib.dec, NilZero.string_of_uint.
  destruct (N.to_uint n) eqn:E; try reflexivity; rewrite <- E at 1;
    try (rewrite E; apply plain_numeral).
Qed.

Lemma plain_dec2 n : plain (Lib.dec2 n) = true.
Proof.
  unfold Lib.dec2. destruct (n <? 10)%N; [|apply plain_dec].
  rewrite plain_app, plain_dec. reflexivity.
Qed.

Lemma plain_strftime t : plain (Lib.strftime t) = true.
Proof.
  unfold Lib.strftime.
  repeat (rewrite plain_app; rewrite ?plain_dec, ?plain_dec2; cbn [andb]).
  reflexivity.
Qed.

Lemma plain_choice draw : plain (Lib.choice Publisher.statuses draw) = true.
Proof.
  pose proof (choice_in Publisher.statuses draw ltac:(discriminate)) as H.
  simpl in H. destruct H as [<- | [<- | [<- | []]]]; reflexivity.
Qed.

Lemma span_digits_numeral d rest :
  match rest with
  | String c _ => Json.is_digit c = false
  | EmptyString => True
  end ->
  Json.span_digits (NilEmpty.string_of_uint d ++ rest)
  = (NilEmpty.string_of_uint d, rest).
Proof.
  intro H. induction d;
    cbn [NilEmpty.string_of_uint String.append Json.span_digits];
    try (change (Json.is_digit _) with true; cbn iota; rewrite IHd; reflexivity).
  destruct rest as [|c r]; [reflexivity|].
  cbn [Json.span_digits]. rewrite H. reflexivity.
Qed.

Lemma unorm_not_padded x y : Decimal.unorm x = Decimal.D0 y -> y = Decimal.Nil.
Proof.
  induction x; simpl; intro H; try discriminate; auto.
  injection H as <-. reflexivity.
Qed.

Lemma normal_nonnil d : normal d -> d <> Decimal.Nil.
Proof. unfold normal. intros H ->. discriminate. Qed.

Lemma normal_to_uint p : normal (Pos.to_uint p).
Proof.
  unfold normal.
  pose proof (DecimalN.Unsigned.to_of (N.to_uint (N.pos p))) as H.
  rewrite DecimalN.Unsigned.of_to in H. simpl in H. symmetry. exact H.
Qed.

Lemma leading_zero_normal d :
  normal d -> Json.leading_zero (NilZero.string_of_uint d) = false.
Proof.
  unfold normal. intro H.
  destruct d; try reflexivity;
    try (cbn [NilZero.string_of_uint NilEmpty.string_of_uint Json.leading_zero];
         destruct (NilEmpty.string_of_uint d); reflexivity).
  simpl in H. apply unorm_not_padded in H. subst d. reflexivity.
Qed.

Lemma string_of_uint_nonnil d :
  d <> Decimal.Nil -> NilZero.string_of_uint d = NilEmpty.string_of_uint d.
Proof. destruct d; [congruence | reflexivity ..]. Qed.

Lemma parse_digits_numeral negative d rest :
  normal d ->
  number_end rest = true ->
  Json.parse_digits negative (NilZero.string_of_uint d ++ rest)
  = Some (PInt (if negative then - Z.of_uint d else Z.of_uint d), rest).
Proof.
  intros Hn Hend. unfold Json.parse_digits.
  pose proof (normal_nonnil _ Hn) as Hnil.
  rewrite (string_of_uint_nonnil _ Hnil) at 1.
  rewrite span_digits_numeral.
  - rewrite <- (string_of_uint_nonnil _ Hnil).
    rewrite (leading_zero_normal _ Hn).
    assert (Json.starts_float_tail rest = false) as ->.
    { destruct rest; [reflexivity|]. unfold number_end in Hend.
      apply andb_prop in Hend. destruct Hend as [_ H].
      apply negb_true_iff in H. exact H. }
    cbn [orb]. rewrite (NilZero.usu _ Hnil). reflexivity.
  - destruct rest; [exact I|]. unfold number_end in Hend.
    apply andb_prop in Hend. destruct Hend as [H _].
    apply negb_true_iff in H. exact H.
Qed.

Lemma of_uint_to_uint p : Z.of_uint (Pos.to_uint p) = Z.pos p.
Proof. exact (DecimalZ.of_to (Z.pos p)). Qed.

(** An integer is read back, whatever the fuel, when what follows
    cannot continue a number. *)
Lemma parse_value_int fuel z rest :
  number_end rest = true ->
  Json.parse_value (S fuel) (Lib.dumps_int z ++ rest) = Some (PInt z, rest).
Proof.
  intro Hend. unfold Lib.dumps_int.
  destruct z as [|p|p]; cbn [Z.to_int NilZero.string_of_int].
  - change (NilZero.string_of_uint Decimal.zero) with "0"%string.
    cbn [String.append Json.parse_value Json.skip_ws]. cbn.
    change (String "0" rest) with (NilZero.string_of_uint Decimal.zero ++ rest)%string.
    rewrite parse_digits_numeral; [reflexivity | reflexivity | exact Hend].
  - pose proof (normal_to_uint p) as Hn.
    pose proof (of_uint_to_uint p) as Hz.
    pose proof (parse_digits_numeral false _ rest Hn Hend) as Hp.
    rewrite Hz in Hp.
    destruct (Pos.to_uint p) eqn:E;
      [exfalso; exact (normal_nonnil _ Hn eq_refl) | ..];
      cbn [NilZero.string_of_uint NilEmpty.string_of_uint String.append] in *;
      cbn [Json.parse_value Json.skip_ws]; cbn; exact Hp.
  - pose proof (normal_to_uint p) as Hn.
    pose proof (of_uint_to_uint p) as Hz.
    pose proof (parse_digits_numeral true _ rest Hn Hend) as Hp.
    rewrite Hz in Hp.
    cbn [String.append Json.parse_value Json.skip_ws]. cbn. exact Hp.
Qed.

Lemma parse_value_space fuel s :
  Json.parse_value fuel (String " " s) = Json.parse_value fuel s.
Proof. destruct fuel; reflexivity. Qed.

Lemma parse_value_str fuel s rest :
  plain s = true ->
  Json.parse_value (S fuel) (Lib.quote ++ s ++ Lib.quote ++ rest)
  = Some (PStr s, rest).
Proof.
  intro H. cbn -[Json.parse_chars]. rewrite (parse_chars_plain _ _ H). reflexivity.
Qed.

(** One member of an object, [key: value], and what comes after it. *)
Lemma parse_member fuel acc k v vtext tail :
  plain k = true ->
  Json.parse_value fuel (vtext ++ tail) = Some (v, tail) ->
  Json.parse_members (S fuel) acc
    (Lib.quote ++ k ++ Lib.quote ++ ": " ++ vtext ++ tail)
  = match Json.skip_ws tail with
    | String c rest =>
        if (N_of_ascii c =? 125)%N then Some (PDict (Json.dict_set acc k v), rest)
        else if (N_of_ascii c =? 44)%N
        then Json.parse_members fuel (Json.dict_set acc k v) (Json.skip_ws rest)
        else None
    | EmptyString => None
    end.
Proof.
  intros Hk Hv.
  cbn -[Json.parse_chars Json.parse_value Json.skip_ws].
  rewrite (parse_chars_plain _ _ Hk).
  cbn -[Json.parse_value Json.skip_ws]. cbn [Json.skip_ws]. cbn -[Json.parse_value Json.skip_ws].
  rewrite parse_value_space, Hv. reflexivity.
Qed.

(** The text of a message, member by member. *)
Lemma parse_record fuel tn n ts tv v st :
  (forall f rest, number_end rest = true ->
                  Json.parse_value (S f) (tn ++ rest) = Some (PInt n, rest)) ->
  (forall f rest, number_end rest = true ->
                  Json.parse_value (S f) (tv ++ rest) = Some (PInt v, rest)) ->
  plain ts = true ->
  plain st = true ->
  Json.parse_value (6 + fuel)
    ("{" ++ Lib.quote ++ "message_id" ++ Lib.quote ++ ": " ++ tn ++ ", "
     ++ Lib.quote ++ "timestamp" ++ Lib.quote ++ ": "
     ++ Lib.quote ++ ts ++ Lib.quote ++ ", "
     ++ Lib.quote ++ "value" ++ Lib.quote ++ ": " ++ tv ++ ", "
     ++ Lib.quote ++ "status" ++ Lib.quote ++ ": "
     ++ Lib.quote ++ st ++ Lib.quote ++ "}")
  = Some (PDict [ ("message_id", PInt n); ("timestamp", PStr ts);
                  ("value", PInt v); ("status", PStr st) ], "").
Proof.
  intros Hn Hv Hts Hst.
  set (m4 := Lib.quote ++ "status" ++ Lib.quote ++ ": "
             ++ Lib.quote ++ st ++ Lib.quote ++ "}").
  set (m3 := Lib.quote ++ "value" ++ Lib.quote ++ ": " ++ tv ++ ", " ++ m4).
  set (m2 := Lib.quote ++ "timestamp" ++ Lib.quote ++ ": "
             ++ Lib.quote ++ ts ++ Lib.quote ++ ", " ++ m3).
  pose proof (parse_member (4 + fuel) [] "message_id" (PInt n) tn (", " ++ m2)
                eq_refl (Hn (3 + fuel)%nat (", " ++ m2) eq_refl)) as H1.
  pose proof (parse_member (3 + fuel) [("message_id", PInt n)] "timestamp" (PStr ts)
                (Lib.quote ++ ts ++ Lib.quote) (", " ++ m3) eq_refl) as H2.
  rewrite !append_assoc in H2.
  specialize (H2 (parse_value_str _ _ _ Hts)).
  pose proof (parse_member (2 + fuel)
                [("message_id", PInt n); ("timestamp", PStr ts)] "value" (PInt v)
                tv (", " ++ m4) eq_refl (Hv (1 + fuel)%nat (", " ++ m4) eq_refl)) as H3.
  pose proof (parse_member (1 + fuel)
                [("message_id", PInt n); ("timestamp", PStr ts); ("value", PInt v)]
                "status" (PStr st) (Lib.quote ++ st ++ Lib.quote) "}" eq_refl) as H4.
  rewrite !append_assoc in H4.
  specialize (H4 (parse_value_str _ _ _ Hst)).
  subst m2 m3 m4.
  cbn -[Json.parse_members Json.parse_value] in H1, H2, H3, H4.
  cbn -[Json.parse_members].
  rewrite H1, H2, H3, H4. reflexivity.
Qed.

Lemma loads_record n ts v st :
  plain ts = true ->
  plain st = true ->
  Json.json_loads
    (Lib.json_dumps (PDict [ ("message_id", PInt n); ("timestamp", PStr ts);
                             ("value", PInt v); ("status", PStr st) ]))
  = Some (PDict [ ("message_id", PInt n); ("timestamp", PStr ts);
                  ("value", PInt v); ("status", PStr st) ]).
Proof.
  intros Hts Hst. cbn [Lib.json_dumps].
  rewrite (dumps_str_plain "message_id"), (dumps_str_plain "timestamp"),
    (dumps_str_plain "value"), (dumps_str_plain "status"),
    (dumps_str_plain ts), (dumps_str_plain st) by (assumption || reflexivity).
  rewrite !append_assoc.
  unfold Json.json_loads.
  match goal with
  | |- context [Json.parse_value (S (String.length ?t)) ?t] =>
      assert (Hlen : exists f, S (String.length t) = (6 + f)%nat)
        by (unfold Lib.quote; cbn [String.append String.length];
            eexists; reflexivity)
  end.
  destruct Hlen as [f ->].
  rewrite (parse_record f (Lib.dumps_int n) n ts (Lib.dumps_int v) v st);
    try assumption; try reflexivity;
    intros; apply parse_value_int; assumption.
Qed.

(** C8.  Whatever the counter, the clock and the random draws, the
    text [json.dumps] writes for the dictionary built by
    [create_sample_message] is read back by [json.loads] as the same
    dictionary (same keys in the same order, same values), and each of
    the four required fields can be read from it. *)
Theorem C8_dumps_loads_roundtrip :
  forall (message_count : Z) (now : Lib.struct_time) (draw_value draw_status : N),
    let message :=
      Publisher.create_sample_message message_count now draw_value draw_status in
    Json.json_loads (Lib.json_dumps message) = Some message
    /\ (forall k, In k Subscriber.required_fields ->
                  exists v, getitem message k = Ok v).
Proof.
  intros n now dv ds message. split.
  - apply loads_record; [apply plain_strftime | apply plain_choice].
  - intros k Hk. simpl in Hk.
    destruct Hk as [<- | [<- | [<- | [<- | []]]]]; eexists; reflexivity.
Qed.

(* ================================================================= *)
(** ** The producer's loop *)

Lemma advance_advance st l1 c1 l2 c2 :
  advance (advance st l1 c1) l2 c2 = advance st (l1 ++ l2) (c1 ++ c2).
Proof.
  unfold advance, add_calls, add_log. cbn. rewrite <- !List.app_assoc. reflexivity.
Qed.

Lemma advance_nil st : advance st [] [] = st.
Proof.
  destruct st. unfold advance, add_calls, add_log. cbn.
  rewrite !List.app_nil_r. reflexivity.
Qed.

Lemma log_advance l text st :
  log l text st = (Ok tt, advance st (if enabled (st_debug st) l
                                      then [line l text] else []) []).
Proof.
  destruct st as [dbg lg cs cn]. unfold log, advance, add_calls, add_log. cbn.
  destruct (enabled dbg l); cbn; rewrite ?List.app_nil_r; reflexivity.
Qed.

Lemma do_call_advance {A} c (answer : result A) st :
  do_call c answer st = (answer, advance st [] [c]).
Proof.
  destruct st as [dbg lg cs cn]. unfold do_call, advance, add_calls, add_log. cbn.
  rewrite ?List.app_nil_r. reflexivity.
Qed.

Lemma payload_message_id_sample n now dv ds :
  payload_message_id
    (Lib.json_dumps (Publisher.create_sample_message n now dv ds)) = Some n.
Proof.
  unfold payload_message_id, Publisher.create_sample_message.
  rewrite loads_record by (apply plain_strftime || apply plain_choice).
  reflexivity.
Qed.

Lemma loop_calls_ids a cycles : forall n,
  map payload_message_id (Publisher.published (loop_calls a n cycles))
  = map Some (count_from (n + 1)
                (List.length (Publisher.published (loop_calls a n cycles)))).
Proof.
  induction cycles as [|c rest IH]; intro n; [reflexivity|].
  cbn [loop_calls]. unfold cycle_payload.
  destruct (Publisher.c_publish c) as [status | e |];
    [destruct (Publisher.c_sleep c) as [[] | e |] | ..];
    cbn [Publisher.published flat_map List.app map List.length count_from];
    rewrite payload_message_id_sample; try reflexivity.
  fold (Publisher.published (loop_calls a (n + 1) rest)).
  rewrite IH. reflexivity.
Qed.

Lemma loop_calls_shape a cycles : forall n c,
  In c (loop_calls a n cycles) ->
  (exists payload, c = Publish (Publisher.topic a) payload 1)
  \/ c = Sleep (Publisher.interval a).
Proof.
  induction cycles as [|x rest IH]; intros n c; [intros []|].
  cbn [loop_calls]. intros [<- | H]; [left; eexists; reflexivity|].
  destruct (Publisher.c_publish x) as [status | e |]; [|destruct H ..].
  destruct H as [<- | H]; [right; reflexivity|].
  destruct (Publisher.c_sleep x) as [[] | e |]; [|destruct H ..].
  exact (IH _ _ H).
Qed.

(** The loop entered with counter [n]: how it ends, what it logs and
    the calls it makes. *)
Lemma publish_loop_exact a cycles : forall n st,
  Publisher.publish_loop a n cycles st
  = (publisher_loop_exit cycles,
     advance st (loop_lines n cycles) (loop_calls a n cycles)).
Proof.
  induction cycles as [|c rest IH]; intros n st.
  - cbn. rewrite advance_nil. reflexivity.
  - cbn [Publisher.publish_loop publisher_loop_exit loop_lines loop_calls].
    unfold bind. rewrite do_call_advance. fold (cycle_payload (n + 1) c).
    destruct (Publisher.c_publish c) as [status | e |]; [|reflexivity ..].
    assert (Hlog : forall s,
               (if status =? 0
                then log INFO [Lit "Sent message: "; FStr (cycle_payload (n + 1) c)]
                else log ERROR [Lit "Failed to send message with status ";
                                FCode status]) s
               = (Ok tt, advance s [report_line status (cycle_payload (n + 1) c)] [])).
    { intro s. unfold report_line. destruct (status =? 0); apply log_advance. }
    rewrite Hlog, do_call_advance, !advance_advance.
    destruct (Publisher.c_sleep c) as [[] | e |]; [|reflexivity ..].
    rewrite IH, advance_advance. reflexivity.
Qed.

(* ================================================================= *)
(** ** The producer's run *)

Lemma check_cert_files_ok fs ca crt ky st :
  first_unusable fs [ca; crt; ky] = None ->
  check_cert_files fs ca crt ky st = (Ok true, st).
Proof. intro H. unfold check_cert_files. apply check_cert_loop_ok, H. Qed.

(** With the three files in place and TLS and the connection set up,
    the run is the loop block entered in [publisher_started]. *)
Lemma publisher_run_started a o :
  first_unusable (Publisher.o_fs o) (publisher_paths a) = None ->
  Publisher.o_tls_set o = Ok tt ->
  Publisher.o_connect o = Ok tt ->
  Publisher.run a o
  = bind (try_finally
            (try_except (Publisher.publish_loop a 0 (Publisher.o_cycles o))
               Publisher.loop_handler)
            (Publisher.shutdown o))
         (fun _ => ret 0) (publisher_started a o).
Proof.
  intros Hfs Htls Hconn. unfold Publisher.run, Publisher.main.
  unfold bind at 1.
  assert (Hdbg : (if Publisher.debug a then set_debug else ret tt) initial_state
                 = (Ok tt, {| st_debug := Publisher.debug a; st_log := [];
                              st_calls := []; st_conn := Disconnected |})).
  { destruct (Publisher.debug a); reflexivity. }
  rewrite Hdbg. unfold bind at 1.
  rewrite (check_cert_files_ok _ _ _ _ _ Hfs). cbn [negb].
  unfold try_except, bind. rewrite Htls, Hconn. cbn.
  unfold publisher_started, publisher_setup_calls, tls_line, connecting_line, line.
  reflexivity.
Qed.

Lemma raise_advance {A} e st : @raise A e st = (Raise e, advance st [] []).
Proof. rewrite advance_nil. reflexivity. Qed.

Lemma publisher_handler_run e st :
  Publisher.loop_handler e st
  = (after_handlers e, advance st (exit_lines "Publisher terminated by user" e) []).
Proof.
  unfold Publisher.loop_handler, after_handlers, exit_lines.
  destruct e; cbn [is_Exception]; rewrite ?log_advance, ?raise_advance; reflexivity.
Qed.

Lemma publisher_shutdown_run o st :
  publisher_shutdown_settles o = true ->
  Publisher.shutdown o st
  = (Ok tt, advance st (publisher_shutdown_lines o ++ [goodbye_line])
              (publisher_shutdown_calls o)).
Proof.
  unfold publisher_shutdown_settles, publisher_shutdown_lines,
    publisher_shutdown_calls, Publisher.shutdown, try_except, bind, settles.
  intro H. rewrite do_call_advance.
  destruct (Publisher.o_loop_stop o) as [[] | e |]; [| |discriminate].
  - rewrite do_call_advance.
    destruct (Publisher.o_disconnect o) as [[] | e |]; [| |discriminate].
    + rewrite log_advance, !advance_advance. reflexivity.
    + rewrite H, log_advance, log_advance, !advance_advance. reflexivity.
  - rewrite H, log_advance, log_advance, !advance_advance. reflexivity.
Qed.

(** The [try] statement around the producer's loop, when the loop ends
    with an exception and the shutdown calls settle. *)
Lemma publisher_block_run a o e st :
  publisher_loop_exit (Publisher.o_cycles o) = Raise e ->
  publisher_shutdown_settles o = true ->
  try_finally
    (try_except (Publisher.publish_loop a 0 (Publisher.o_cycles o))
       Publisher.loop_handler)
    (Publisher.shutdown o) st
  = (after_handlers e,
     advance st
       (loop_lines 0 (Publisher.o_cycles o)
        ++ exit_lines "Publisher terminated by user" e
        ++ publisher_shutdown_lines o ++ [goodbye_line])
       (loop_calls a 0 (Publisher.o_cycles o) ++ publisher_shutdown_calls o)).
Proof.
  intros Hexit Hsettle.
  unfold try_finally, try_except.
  rewrite publish_loop_exact, Hexit, publisher_handler_run.
  rewrite (publisher_shutdown_run _ _ Hsettle), !advance_advance.
  rewrite List.app_nil_r.
  destruct e; reflexivity.
Qed.

Lemma publisher_shutdown_any o st :
  exists r new cs,
    Publisher.shutdown o st = (r, advance st new cs)
    /\ forallb shutdown_call cs = true.
Proof.
  unfold Publisher.shutdown, try_except, bind. rewrite do_call_advance.
  destruct (Publisher.o_loop_stop o) as [[] | e |].
  - rewrite do_call_advance.
    destruct (Publisher.o_disconnect o) as [[] | e |].
    + rewrite log_advance, !advance_advance. eexists _, _, _. split; reflexivity.
    + destruct (is_Exception e).
      * rewrite log_advance, log_advance, !advance_advance.
        eexists _, _, _. split; reflexivity.
      * rewrite raise_advance, !advance_advance. eexists _, _, _. split; reflexivity.
    + rewrite advance_advance. eexists _, _, _. split; reflexivity.
  - destruct (is_Exception e).
    + rewrite log_advance, log_advance, !advance_advance.
      eexists _, _, _. split; reflexivity.
    + rewrite raise_advance, !advance_advance. eexists _, _, _. split; reflexivity.
  - eexists _, _, _. split; reflexivity.
Qed.

(** The [try] statement around the producer's loop, however the loop
    and the shutdown calls end. *)
Lemma publisher_block_any a o st :
  exists r new cs',
    try_finally
      (try_except (Publisher.publish_loop a 0 (Publisher.o_cycles o))
         Publisher.loop_handler)
      (Publisher.shutdown o) st
    = (r, advance st new (loop_calls a 0 (Publisher.o_cycles o) ++ cs'))
    /\ forallb shutdown_call cs' = true.
Proof.
  unfold try_finally, try_except. rewrite publish_loop_exact.
  destruct (publisher_loop_exit (Publisher.o_cycles o)) as [[] | e |].
  - match goal with
    | |- context [Publisher.shutdown o ?s] =>
        destruct (publisher_shutdown_any o s) as (r & new' & cs' & E' & Hq)
    end.
    rewrite E', advance_advance.
    destruct r as [[] | e |]; eexists _, _, cs'; split; (reflexivity || assumption).
  - rewrite publisher_handler_run, advance_advance, List.app_nil_r.
    match goal with
    | |- context [Publisher.shutdown o ?s] =>
        destruct (publisher_shutdown_any o s) as (r & new' & cs' & E' & Hq)
    end.
    destruct (after_handlers e) as [[] | e0 |] eqn:Ha.
    + rewrite E', advance_advance.
      destruct r as [[] | e1 |]; eexists _, _, cs'; split; (reflexivity || assumption).
    + rewrite E', advance_advance.
      destruct r as [[] | e1 |]; eexists _, _, cs'; split; (reflexivity || assumption).
    + destruct e; discriminate.
  - exists Running, (loop_lines 0 (Publisher.o_cycles o)), [].
    rewrite List.app_nil_r. split; reflexivity.
Qed.

Lemma publisher_run_tls_fails a o :
  first_unusable (Publisher.o_fs o) (publisher_paths a) = None ->
  Publisher.o_tls_set o <> Ok tt ->
  Publisher.run a o
  = (setup_failure (Publisher.o_tls_set o),
     {| st_debug := Publisher.debug a;
        st_log := tls_line
                  :: setup_failure_lines "Failed to set up TLS: "
                       (Publisher.o_tls_set o);
        st_calls := firstn 2 (publisher_setup_calls a o);
        st_conn := Disconnected |}).
Proof.
  intros Hfs Htls. unfold Publisher.run, Publisher.main.
  unfold bind at 1.
  assert (Hdbg : (if Publisher.debug a then set_debug else ret tt) initial_state
                 = (Ok tt, {| st_debug := Publisher.debug a; st_log := [];
                              st_calls := []; st_conn := Disconnected |})).
  { destruct (Publisher.debug a); reflexivity. }
  rewrite Hdbg. unfold bind at 1.
  rewrite (check_cert_files_ok _ _ _ _ _ Hfs). cbn [negb].
  unfold try_except, bind, setup_failure, setup_failure_lines.
  destruct (Publisher.o_tls_set o) as [[] | e |]; [congruence | |].
  - cbn. destruct (is_Exception e); reflexivity.
  - reflexivity.
Qed.

Lemma publisher_run_connect_fails a o :
  first_unusable (Publisher.o_fs o) (publisher_paths a) = None ->
  Publisher.o_tls_set o = Ok tt ->
  Publisher.o_connect o <> Ok tt ->
  Publisher.run a o
  = (setup_failure (Publisher.o_connect o),
     {| st_debug := Publisher.debug a;
        st_log := tls_line
                  :: connecting_line (Publisher.broker a) (Publisher.port a)
                  :: setup_failure_lines "Connection failed: "
                       (Publisher.o_connect o);
        st_calls := firstn 3 (publisher_setup_calls a o);
        st_conn := Disconnected |}).
Proof.
  intros Hfs Htls Hconn. unfold Publisher.run, Publisher.main.
  unfold bind at 1.
  assert (Hdbg : (if Publisher.debug a then set_debug else ret tt) initial_state
                 = (Ok tt, {| st_debug := Publisher.debug a; st_log := [];
                              st_calls := []; st_conn := Disconnected |})).
  { destruct (Publisher.debug a); reflexivity. }
  rewrite Hdbg. unfold bind at 1.
  rewrite (check_cert_files_ok _ _ _ _ _ Hfs). cbn [negb].
  unfold try_except, bind, setup_failure, setup_failure_lines.
  rewrite Htls.
  destruct (Publisher.o_connect o) as [[] | e |]; [congruence | |].
  - cbn. destruct (is_Exception e); reflexivity.
  - reflexivity.
Qed.

Lemma ok_tt_dec (r : result unit) : {r = Ok tt} + {r <> Ok tt}.
Proof. destruct r as [[] | e |]; [left; reflexivity | right; discriminate ..]. Qed.


Lemma published_none cs :
  forallb (fun c => setup_call c || shutdown_call c) cs = true ->
  Publisher.published cs = [].
Proof.
  induction cs as [|c cs IH]; [reflexivity|].
  cbn [forallb]. intro H. apply andb_prop in H. destruct H as [Hc Hcs].
  destruct c; try discriminate; exact (IH Hcs).
Qed.

Lemma forallb_weaken {A} (f g : A -> bool) l :
  (forall x, f x = true -> g x = true) ->
  forallb f l = true -> forallb g l = true.
Proof.
  intros Hfg. rewrite !forallb_forall. intros H x Hx. apply Hfg, H, Hx.
Qed.

(** The calls of any run of the producer: calls of the setup, then the
    calls of the loop if it was reached, then calls of the shutdown. *)
Lemma publisher_run_shape a o :
  exists r new pre mid post,
    Publisher.run a o
    = (r, {| st_debug := Publisher.debug a;
             st_log := new;
             st_calls := pre ++ mid ++ post;
             st_conn := Disconnected |})
    /\ forallb setup_call pre = true
    /\ (mid = [] \/ mid = loop_calls a 0 (Publisher.o_cycles o))
    /\ forallb shutdown_call post = true.
Proof.
  destruct (first_unusable (Publisher.o_fs o) (publisher_paths a)) as [p|] eqn:Hfs.
  { rewrite (publisher_run_rejects _ _ _ Hfs).
    eexists _, _, [], [], []. repeat split. left. reflexivity. }
  destruct (ok_tt_dec (Publisher.o_tls_set o)) as [Htls | Htls].
  2:{ rewrite (publisher_run_tls_fails _ _ Hfs Htls).
      eexists _, _, (firstn 2 (publisher_setup_calls a o)), [], [].
      repeat split. left. reflexivity. }
  destruct (ok_tt_dec (Publisher.o_connect o)) as [Hconn | Hconn].
  2:{ rewrite (publisher_run_connect_fails _ _ Hfs Htls Hconn).
      eexists _, _, (firstn 3 (publisher_setup_calls a o)), [], [].
      repeat split. left. reflexivity. }
  rewrite (publisher_run_started _ _ Hfs Htls Hconn). unfold bind.
  destruct (publisher_block_any a o (publisher_started a o))
    as (r & new & cs' & E & Hq).
  rewrite E.
  destruct r as [[] | e |];
    eexists _, _, (publisher_setup_calls a o), _, cs';
    (split; [reflexivity|]); repeat split; try assumption; right; reflexivity.
Qed.

(** X1.  In every run of the producer, whatever the outside world
    answers, the payloads handed to [client.publish] carry, read back
    with the consumer's parser, the message ids 1, 2, 3, ... in this
    order: as many as there were publish calls, none missing, none
    twice. *)
Theorem publisher_message_ids_count_up :
  forall (a : Publisher.args) (o : Publisher.oracle),
    let payloads := Publisher.published (st_calls (snd (Publisher.run a o))) in
    map payload_message_id payloads
    = map Some (count_from 1 (List.length payloads)).
Proof.
  intros a o payloads. subst payloads.
  destruct (publisher_run_shape a o)
    as (r & new & pre & mid & post & E & Hpre & Hmid & Hpost).
  rewrite E. cbn [snd st_calls].
  unfold Publisher.published. rewrite !flat_map_app.
  fold (Publisher.published pre) (Publisher.published mid)
    (Publisher.published post).
  rewrite (published_none pre), (published_none post).
  - rewrite List.app_nil_r. cbn [List.app].
    destruct Hmid as [-> | ->]; [reflexivity | apply loop_calls_ids].
  - eapply forallb_weaken; [|exact Hpost]. intros x ->. apply orb_true_r.
  - eapply forallb_weaken; [|exact Hpre]. intros x ->. reflexivity.
Qed.

(** X2.  In every run of the producer, each [client.publish] call is
    made on the configured topic with QoS 1, and each [time.sleep] call
    waits for the configured interval. *)
Theorem publisher_publishes_on_topic_qos1 :
  forall (a : Publisher.args) (o : Publisher.oracle),
    let calls := st_calls (snd (Publisher.run a o)) in
    (forall t payload q, In (Publish t payload q) calls ->
                         t = Publisher.topic a /\ q = 1)
    /\ (forall seconds, In (Sleep seconds) calls ->
                        seconds = Publisher.interval a).
Proof.
  intros a o calls. subst calls.
  destruct (publisher_run_shape a o)
    as (r & new & pre & mid & post & E & Hpre & Hmid & Hpost).
  rewrite E. cbn [snd st_calls].
  rewrite forallb_forall in Hpre, Hpost.
  assert (Hin : forall c, loop_call c = true ->
                          In c (pre ++ mid ++ post) ->
                          In c (loop_calls a 0 (Publisher.o_cycles o))).
  { intros c Hc H. apply in_app_or in H. destruct H as [H | H].
    - apply Hpre in H. destruct c; discriminate.
    - apply in_app_or in H. destruct H as [H | H].
      + destruct Hmid as [-> | ->]; [destruct H | exact H].
      + apply Hpost in H. destruct c; discriminate. }
  split.
  - intros t payload q H. apply (Hin (Publish t payload q) eq_refl) in H.
    apply loop_calls_shape in H. destruct H as [(p' & H) | H].
    + injection H as -> _ ->. split; reflexivity.
    + discriminate.
  - intros seconds H. apply (Hin (Sleep seconds) eq_refl) in H.
    apply loop_calls_shape in H. destruct H as [(p' & H) | H].
    + discriminate.
    + injection H as ->. reflexivity.
Qed.

Lemma after_handlers_caught e :
  after_handlers e = if caught e then Ok tt else Raise e.
Proof. destruct e; reflexivity. Qed.

(** X3.  When the producer's setup went through and its loop is left
    by an exception [e], the shutdown runs whatever [e] is: the calls of
    the run are the setup's, the loop's, then [loop_stop] and, if
    [loop_stop] returned, [disconnect].  When both shutdown calls return
    or raise an [Exception], what they raise is logged as "Disconnect
    failed" and swallowed, the last log line is "Disconnected from
    broker", and the process exits with code 0 if [e] is a keyboard
    interrupt or an [Exception]; any other [e] propagates. *)
Theorem publisher_exit_and_shutdown :
  forall (a : Publisher.args) (o : Publisher.oracle) (e : exn),
    first_unusable (Publisher.o_fs o) (publisher_paths a) = None ->
    Publisher.o_tls_set o = Ok tt ->
    Publisher.o_connect o = Ok tt ->
    publisher_loop_exit (Publisher.o_cycles o) = Raise e ->
    publisher_shutdown_settles o = true ->
    Publisher.run a o
    = (exit_after e,
       advance (publisher_started a o)
         (loop_lines 0 (Publisher.o_cycles o)
          ++ exit_lines "Publisher terminated by user" e
          ++ publisher_shutdown_lines o ++ [goodbye_line])
         (loop_calls a 0 (Publisher.o_cycles o) ++ publisher_shutdown_calls o)).
Proof.
  intros a o e Hfs Htls Hconn Hexit Hsettle.
  rewrite (publisher_run_started _ _ Hfs Htls Hconn). unfold bind.
  rewrite (publisher_block_run _ _ _ _ Hexit Hsettle).
  unfold exit_after. rewrite after_handlers_caught.
  destruct (caught e); reflexivity.
Qed.

(** X3 at a run of two cycles ended by Ctrl+C during the second sleep,
    with a [disconnect] that raises: exit code 0, shutdown calls made,
    the failure logged. *)
Lemma publisher_exit_and_shutdown_witness :
  let out := Publisher.run Sample.pub_args
               (Sample.pub_oracle_gone Sample.interrupted_cycles) in
  fst out = Ok 0
  /\ skipn 8 (st_calls (snd out)) = [LoopStop; Disconnect]
  /\ skipn 4 (st_log (snd out))
     = [ line INFO [Lit "Publisher terminated by user"];
         line ERROR [Lit "Disconnect failed: "; FExn (OtherError "not connected")];
         line INFO [Lit "Disconnected from broker"] ].
Proof.
  intro out. subst out.
  rewrite (publisher_exit_and_shutdown Sample.pub_args
             (Sample.pub_oracle_gone Sample.interrupted_cycles) KeyboardInterrupt
             eq_refl eq_refl eq_refl eq_refl eq_refl).
  repeat split.
Defined.

(** X4.  When the certificate files are in place but [tls_set] raises
    an [Exception], the producer logs "Failed to set up TLS" and exits
    with code 1 after creating the client and calling [tls_set] only;
    when [tls_set] returns and [connect] raises an [Exception], it logs
    "Connection failed" and exits with code 1 after these two and
    [connect] only.  In both cases the network thread is never started,
    nothing is published, and neither [loop_stop] nor [disconnect] is
    called. *)
Theorem publisher_setup_failure_exits_1 :
  forall (a : Publisher.args) (o : Publisher.oracle) (e : exn),
    first_unusable (Publisher.o_fs o) (publisher_paths a) = None ->
    is_Exception e = true ->
    (Publisher.o_tls_set o = Raise e ->
       Publisher.run a o
       = (Ok 1,
          {| st_debug := Publisher.debug a;
             st_log := [tls_line; line ERROR [Lit "Failed to set up TLS: "; FExn e]];
             st_calls :=
               [ NewClient "kobayashi-publisher-"
                   (Lib.randint 0 1000 (Publisher.o_client_draw o));
                 TlsSet (Publisher.ca_cert a) (Publisher.cert a) (Publisher.key a) ];
             st_conn := Disconnected |}))
    /\ (Publisher.o_tls_set o = Ok tt ->
          Publisher.o_connect o = Raise e ->
          Publisher.run a o
          = (Ok 1,
             {| st_debug := Publisher.debug a;
                st_log := [tls_line;
                           connecting_line (Publisher.broker a) (Publisher.port a);
                           line ERROR [Lit "Connection failed: "; FExn e]];
                st_calls :=
                  [ NewClient "kobayashi-publisher-"
                      (Lib.randint 0 1000 (Publisher.o_client_draw o));
                    TlsSet (Publisher.ca_cert a) (Publisher.cert a)
                      (Publisher.key a);
                    Connect (Publisher.broker a) (Publisher.port a) ];
                st_conn := Disconnected |})).
Proof.
  intros a o e Hfs He. split.
  - intro Htls. rewrite (publisher_run_tls_fails _ _ Hfs) by congruence.
    rewrite Htls. unfold setup_failure, setup_failure_lines. rewrite He.
    reflexivity.
  - intros Htls Hconn.
    rewrite (publisher_run_connect_fails _ _ Hfs Htls) by congruence.
    rewrite Hconn. unfold setup_failure, setup_failure_lines. rewrite He.
    reflexivity.
Qed.

Lemma publisher_setup_failure_exits_1_witness :
  fst (Publisher.run Sample.pub_args Sample.pub_oracle_bad_tls) = Ok 1
  /\ List.length (st_calls (snd (Publisher.run Sample.pub_args
                                   Sample.pub_oracle_bad_tls))) = 2%nat
  /\ fst (Publisher.run Sample.pub_args Sample.pub_oracle_refused) = Ok 1
  /\ List.length (st_calls (snd (Publisher.run Sample.pub_args
                                   Sample.pub_oracle_refused))) = 3%nat.
Proof.
  pose proof (publisher_setup_failure_exits_1 Sample.pub_args
                Sample.pub_oracle_bad_tls (OtherError "key values mismatch")
                eq_refl eq_refl) as [H1 _].
  pose proof (publisher_setup_failure_exits_1 Sample.pub_args
                Sample.pub_oracle_refused (OtherError "connection refused")
                eq_refl eq_refl) as [_ H2].
  rewrite (H1 eq_refl), (H2 eq_refl eq_refl). repeat split.
Defined.

Lemma uneventful_loop a cycles : forall n,
  forallb uneventful cycles = true ->
  publisher_loop_exit cycles = Running
  /\ loop_lines n cycles
     = map (fun ic => report_line (status_of (snd ic)) (cycle_payload (fst ic) (snd ic)))
         (numbered n cycles)
  /\ loop_calls a n cycles
     = flat_map (fun ic => [ Publish (Publisher.topic a)
                               (cycle_payload (fst ic) (snd ic)) 1;
                             Sleep (Publisher.interval a) ])
         (numbered n cycles).
Proof.
  induction cycles as [|c rest IH]; intros n H; [repeat split|].
  cbn [forallb] in H. apply andb_prop in H. destruct H as [Hc Hrest].
  destruct (IH (n + 1) Hrest) as (E1 & E2 & E3).
  unfold numbered in *. unfold uneventful in Hc. unfold status_of.
  cbn [publisher_loop_exit loop_lines loop_calls List.length count_from combine
         map flat_map fst snd List.app].
  destruct (Publisher.c_publish c) as [status | e |]; try discriminate.
  destruct (Publisher.c_sleep c) as [[] | e |]; try discriminate.
  rewrite E1, E2, E3. repeat split.
Qed.

(** X5.  As long as every [publish] and every [sleep] returns, the
    producer's loop goes on whatever status [publish] reports: each
    cycle makes one [publish] call followed by one [sleep] call and
    writes one line, "Sent message" at info level for status 0 and
    "Failed to send message with status" at error level otherwise; the
    run is still going after the observed cycles and no shutdown call
    has been made. *)
Theorem publisher_keeps_publishing :
  forall (a : Publisher.args) (o : Publisher.oracle),
    first_unusable (Publisher.o_fs o) (publisher_paths a) = None ->
    Publisher.o_tls_set o = Ok tt ->
    Publisher.o_connect o = Ok tt ->
    forallb uneventful (Publisher.o_cycles o) = true ->
    Publisher.run a o
    = (Running,
       advance (publisher_started a o)
         (map (fun ic => report_line (status_of (snd ic))
                           (cycle_payload (fst ic) (snd ic)))
            (numbered 0 (Publisher.o_cycles o)))
         (flat_map (fun ic => [ Publish (Publisher.topic a)
                                  (cycle_payload (fst ic) (snd ic)) 1;
                                Sleep (Publisher.interval a) ])
            (numbered 0 (Publisher.o_cycles o)))).
Proof.
  intros a o Hfs Htls Hconn Hcycles.
  rewrite (publisher_run_started _ _ Hfs Htls Hconn).
  destruct (uneventful_loop a _ 0 Hcycles) as (E1 & E2 & E3).
  unfold bind, try_finally, try_except.
  rewrite publish_loop_exact, E1, E2, E3. reflexivity.
Qed.

(** X5 at two cycles, the second publish reporting status 4. *)
Lemma publisher_keeps_publishing_witness :
  let out := Publisher.run Sample.pub_args
               (Sample.pub_oracle Sample.fs_complete
                  [Sample.cycle_with 0 (Ok tt); Sample.cycle_with 4 (Ok tt)]) in
  fst out = Running
  /\ map e_level (skipn 2 (st_log (snd out))) = [INFO; ERROR]
  /\ filter shutdown_call (st_calls (snd out)) = [].
Proof.
  intro out. subst out.
  rewrite (publisher_keeps_publishing Sample.pub_args
             (Sample.pub_oracle Sample.fs_complete
                [Sample.cycle_with 0 (Ok tt); Sample.cycle_with 4 (Ok tt)])
             eq_refl eq_refl eq_refl eq_refl).
  repeat split.
Defined.

(* ================================================================= *)
(** ** The consumer's callbacks and loop *)

Lemma first_missing_none items :
  first_missing items = None ->
  exists v1 v2 v3 v4,
    dict_get items "message_id" = Some v1
    /\ dict_get items "timestamp" = Some v2
    /\ dict_get items "value" = Some v3
    /\ dict_get items "status" = Some v4.
Proof.
  unfold first_missing, Subscriber.required_fields. simpl.
  destruct (dict_get items "message_id"); [|discriminate].
  destruct (dict_get items "timestamp"); [|discriminate].
  destruct (dict_get items "value"); [|discriminate].
  destruct (dict_get items "status"); [|discriminate].
  intros _. eexists _, _, _, _. repeat split.
Qed.

Lemma on_message_returns :
  forall (decode : list Byte.byte -> option string)
         (loads : string -> option value)
         (msg : Subscriber.message) (now : Lib.struct_time) (st : state),
  exists new,
    Subscriber.on_message decode loads msg now st = (Ok tt, add_log st new)
    /\ new <> [].
Proof.
  intros decode loads msg now st.
  destruct (decode (Subscriber.m_payload msg)) as [s|] eqn:Hd.
  2:{ eexists. split; [apply (on_message_not_text _ _ _ _ _ Hd) | discriminate]. }
  destruct (loads s) as [v|] eqn:Hl.
  2:{ eexists. split; [apply (on_message_not_json _ _ _ _ _ _ Hd Hl) | discriminate]. }
  destruct (is_record v) eqn:Hr.
  2:{ eexists.
      split; [apply (on_message_not_record _ _ _ _ _ _ _ Hd Hl Hr) | discriminate]. }
  destruct v; try discriminate.
  destruct (first_missing items) as [k|] eqn:Hk.
  - eexists. split; [apply (on_message_missing _ _ _ _ _ _ _ _ Hd Hl Hk) | discriminate].
  - destruct (first_missing_none _ Hk) as (v1 & v2 & v3 & v4 & E1 & E2 & E3 & E4).
    eexists.
    split; [apply (on_message_complete _ _ _ _ _ _ _ _ _ _ _ Hd Hl E1 E2 E3 E4)
           | discriminate].
Qed.


(** X6.  Whatever bytes arrive and whatever the decoder and the parser
    make of them, [on_message] returns normally: it raises nothing,
    makes no call on the client, and changes nothing but the log, to
    which it adds at least one line. *)
Theorem on_message_only_logs :
  forall (decode : list Byte.byte -> option string)
         (loads : string -> option value)
         (msg : Subscriber.message) (now : Lib.struct_time) (st : state),
  exists new,
    Subscriber.on_message decode loads msg now st = (Ok tt, add_log st new)
    /\ new <> [].
Proof. exact on_message_returns. Qed.

Lemma warn_failed_run codes : forall idx st,
  Subscriber.warn_failed idx codes st
  = (Ok tt,
     add_log st (map subscribe_warning (filter refused (enumerate_from idx codes)))).
Proof.
  induction codes as [|rc rest IH]; intros idx st.
  - destruct st. unfold add_log. cbn. rewrite List.app_nil_r. reflexivity.
  - cbn [Subscriber.warn_failed enumerate_from filter]. unfold bind, refused at 1.
    cbn [snd]. destruct (rc =? 0); cbn [negb].
    + cbn. apply IH.
    + rewrite log_advance. cbn [enabled]. rewrite IH.
      destruct st. unfold advance, add_calls, add_log, subscribe_warning. cbn.
      rewrite List.app_nil_r, <- List.app_assoc. reflexivity.
Qed.

Lemma on_subscribe_run :
  forall (mid : Z) (reason_code_list : option (list Z)) (st : state),
    Subscriber.on_subscribe mid reason_code_list st
    = (Ok tt,
       add_log st
         (debug_line (st_debug st) [Lit "Subscribed with message ID: "; FCode mid]
          ++ map subscribe_warning
               (filter refused
                  (enumerate_from 0 (match reason_code_list with
                                     | Some codes => codes
                                     | None => []
                                     end))))).
Proof.
  intros mid codes st. unfold Subscriber.on_subscribe, bind.
  rewrite log_advance.
  assert (E : advance st (if enabled (st_debug st) DEBUG
                          then [line DEBUG [Lit "Subscribed with message ID: ";
                                            FCode mid]]
                          else []) []
              = add_log st (debug_line (st_debug st)
                              [Lit "Subscribed with message ID: "; FCode mid])).
  { destruct st. unfold advance, add_calls, add_log, debug_line. cbn.
    rewrite List.app_nil_r. reflexivity. }
  rewrite E.
  assert (A : forall l1 l2, add_log (add_log st l1) l2 = add_log st (l1 ++ l2)).
  { intros. unfold add_log. cbn. rewrite List.app_assoc. reflexivity. }
  destruct codes as [[|c l]|].
  - cbn [filter enumerate_from map]. rewrite List.app_nil_r. reflexivity.
  - rewrite warn_failed_run, A. reflexivity.
  - cbn [filter enumerate_from map]. rewrite List.app_nil_r. reflexivity.
Qed.

(** X7.  [on_subscribe] returns normally and changes nothing but the
    log: after its debug line (written only when debugging is on) it
    writes one warning for each reason code of the list that is not 0,
    in the order of the list, each with the position of the code
    counted from 0; a missing or empty list gives no warning. *)
Theorem on_subscribe_warns_per_refusal :
  forall (mid : Z) (reason_code_list : option (list Z)) (st : state),
    Subscriber.on_subscribe mid reason_code_list st
    = (Ok tt,
       add_log st
         (debug_line (st_debug st) [Lit "Subscribed with message ID: "; FCode mid]
          ++ map subscribe_warning
               (filter refused
                  (enumerate_from 0 (match reason_code_list with
                                     | Some codes => codes
                                     | None => []
                                     end))))).
Proof. exact on_subscribe_run. Qed.

Lemma add_log_advance st new : add_log st new = advance st new [].
Proof.
  destruct st. unfold advance, add_calls, add_log. cbn.
  rewrite List.app_nil_r. reflexivity.
Qed.

(** The network loop over the observed events: it ends as
    [subscriber_loop_exit] says, and the only calls it makes are the
    subscriptions. *)
Lemma deliver_run decode loads ud events ending : forall st,
  exists new,
    Subscriber.deliver decode loads ud events ending st
    = (subscriber_loop_exit events ending,
       advance st new (subscribe_calls ud events)).
Proof.
  induction events as [|ev rest IH]; intro st.
  - exists []. cbn. rewrite advance_nil. destruct st. reflexivity.
  - cbn [Subscriber.deliver subscriber_loop_exit subscribe_calls].
    unfold bind. destruct ev as [rc sub | mid codes | msg now | rc];
      cbn [Subscriber.callback].
    + unfold Subscriber.on_connect, bind. destruct (rc =? 0).
      * rewrite log_advance, do_call_advance, advance_advance.
        destruct sub as [[] | e |].
        -- rewrite log_advance, advance_advance.
           match goal with
           | |- context [Subscriber.deliver decode loads ud rest ending ?s] =>
               destruct (IH s) as [new E]; rewrite E
           end.
           rewrite advance_advance. eexists. reflexivity.
        -- eexists. reflexivity.
        -- eexists. reflexivity.
      * rewrite log_advance.
        match goal with
        | |- context [Subscriber.deliver decode loads ud rest ending ?s] =>
            destruct (IH s) as [new E]; rewrite E
        end.
        rewrite advance_advance. eexists. reflexivity.
    + rewrite on_subscribe_run, add_log_advance.
      match goal with
      | |- context [Subscriber.deliver decode loads ud rest ending ?s] =>
          destruct (IH s) as [new E]; rewrite E
      end.
      rewrite advance_advance. eexists. reflexivity.
    + destruct (on_message_returns decode loads msg now st) as (l & E0 & _).
      rewrite E0, add_log_advance.
      match goal with
      | |- context [Subscriber.deliver decode loads ud rest ending ?s] =>
          destruct (IH s) as [new E]; rewrite E
      end.
      rewrite advance_advance. eexists. reflexivity.
    + unfold Subscriber.on_disconnect.
      destruct (rc =? 0); rewrite log_advance;
        match goal with
        | |- context [Subscriber.deliver decode loads ud rest ending ?s] =>
            destruct (IH s) as [new E]; rewrite E
        end;
        rewrite advance_advance; eexists; reflexivity.
Qed.






Lemma message_events_exit events ending ud :
  forallb is_message_event events = true ->
  subscriber_loop_exit events ending = ending
  /\ subscribe_calls ud events = [].
Proof.
  induction events as [|ev rest IH]; [split; reflexivity|].
  cbn [forallb]. intro H. apply andb_prop in H. destruct H as [Hev Hrest].
  destruct ev; try discriminate. exact (IH Hrest).
Qed.

(** X9.  No message ends the consumer's loop: over any sequence of
    incoming messages, whatever their bytes, the network loop delivers
    every one of them to [on_message], makes no call on the client,
    changes nothing but the log, and ends only as the loop itself
    ends. *)
Theorem messages_never_end_the_loop :
  forall (decode : list Byte.byte -> option string)
         (loads : string -> option value)
         (ud : Subscriber.userdata) (events : list Subscriber.event)
         (ending : result unit) (st : state),
    forallb is_message_event events = true ->
    exists new,
      Subscriber.deliver decode loads ud events ending st
      = (ending, add_log st new).
Proof.
  intros decode loads ud events ending st H.
  destruct (deliver_run decode loads ud events ending st) as [new E].
  destruct (message_events_exit events ending ud H) as [E1 E2].
  exists new. rewrite E, E1, E2, add_log_advance. reflexivity.
Qed.

Lemma messages_never_end_the_loop_witness :
  exists new,
    Subscriber.deliver Json.utf8_decode Json.json_loads
      (subscriber_userdata Sample.sub_args)
      [ Subscriber.EvMessage Sample.garbled Sample.clock;
        Subscriber.EvMessage Sample.truncated Sample.clock;
        Subscriber.EvMessage Sample.array Sample.clock ]
      Running initial_state
    = (Running, add_log initial_state new).
Proof.
  apply (messages_never_end_the_loop Json.utf8_decode Json.json_loads
           (subscriber_userdata Sample.sub_args)
           [ Subscriber.EvMessage Sample.garbled Sample.clock;
             Subscriber.EvMessage Sample.truncated Sample.clock;
             Subscriber.EvMessage Sample.array Sample.clock ]
           Running initial_state).
  reflexivity.
Defined.




Lemma subscriber_run_tls_fails decode loads a o :
  first_unusable (Subscriber.o_fs o) (subscriber_paths a) = None ->
  Subscriber.o_tls_set o <> Ok tt ->
  Subscriber.run decode loads a o
  = (setup_failure (Subscriber.o_tls_set o),
     {| st_debug := Subscriber.debug a;
        st_log := tls_line
                  :: setup_failure_lines "Failed to set up TLS: "
                       (Subscriber.o_tls_set o);
        st_calls := firstn 2 (subscriber_setup_calls a o);
        st_conn := Disconnected |}).
Proof.
  intros Hfs Htls. unfold Subscriber.run, Subscriber.main.
  unfold bind at 1.
  assert (Hdbg : (if Subscriber.debug a then set_debug else ret tt) initial_state
                 = (Ok tt, {| st_debug := Subscriber.debug a; st_log := [];
                              st_calls := []; st_conn := Disconnected |})).
  { destruct (Subscriber.debug a); reflexivity. }
  rewrite Hdbg. unfold bind at 1.
  rewrite (check_cert_files_ok _ _ _ _ _ Hfs). cbn [negb].
  unfold try_except, bind, setup_failure, setup_failure_lines.
  destruct (Subscriber.o_tls_set o) as [[] | e |]; [congruence | |].
  - cbn. destruct (is_Exception e); reflexivity.
  - reflexivity.
Qed.

Lemma subscriber_run_connect_fails decode loads a o :
  first_unusable (Subscriber.o_fs o) (subscriber_paths a) = None ->
  Subscriber.o_tls_set o = Ok tt ->
  Subscriber.o_connect o <> Ok tt ->
  Subscriber.run decode loads a o
  = (setup_failure (Subscriber.o_connect o),
     {| st_debug := Subscriber.debug a;
        st_log := tls_line
                  :: connecting_line (Subscriber.broker a) (Subscriber.port a)
                  :: setup_failure_lines "Connection failed: "
                       (Subscriber.o_connect o);
        st_calls := firstn 3 (subscriber_setup_calls a o);
        st_conn := Disconnected |}).
Proof.
  intros Hfs Htls Hconn. unfold Subscriber.run, Subscriber.main.
  unfold bind at 1.
  assert (Hdbg : (if Subscriber.debug a then set_debug else ret tt) initial_state
                 = (Ok tt, {| st_debug := Subscriber.debug a; st_log := [];
                              st_calls := []; st_conn := Disconnected |})).
  { destruct (Subscriber.debug a); reflexivity. }
  rewrite Hdbg. unfold bind at 1.
  rewrite (check_cert_files_ok _ _ _ _ _ Hfs). cbn [negb].
  unfold try_except, bind, setup_failure, setup_failure_lines.
  rewrite Htls.
  destruct (Subscriber.o_connect o) as [[] | e |]; [congruence | |].
  - cbn. destruct (is_Exception e); reflexivity.
  - reflexivity.
Qed.

(** X11.  When the certificate files are in place but [tls_set] raises
    an [Exception], the consumer logs "Failed to set up TLS" and exits
    with code 1 after creating the client and calling [tls_set] only;
    when [tls_set] returns and [connect] raises an [Exception], it logs
    "Connection failed" and exits with code 1 after these two and
    [connect] only.  In both cases [loop_forever] is never entered,
    nothing is subscribed, and [disconnect] is not called. *)
Theorem subscriber_setup_failure_exits_1 :
  forall (decode : list Byte.byte -> option string)
         (loads : string -> option value)
         (a : Subscriber.args) (o : Subscriber.oracle) (e : exn),
    first_unusable (Subscriber.o_fs o) (subscriber_paths a) = None ->
    is_Exception e = true ->
    (Subscriber.o_tls_set o = Raise e ->
       Subscriber.run decode loads a o
       = (Ok 1,
          {| st_debug := Subscriber.debug a;
             st_log := [tls_line; line ERROR [Lit "Failed to set up TLS: "; FExn e]];
             st_calls :=
               [ NewClient "kobayashi-subscriber-"
                   (Lib.randint 0 1000 (Subscriber.o_client_draw o));
                 TlsSet (Subscriber.ca_cert a) (Subscriber.cert a)
                   (Subscriber.key a) ];
             st_conn := Disconnected |}))
    /\ (Subscriber.o_tls_set o = Ok tt ->
        Subscriber.o_connect o = Raise e ->
        Subscriber.run decode loads a o
        = (Ok 1,
           {| st_debug := Subscriber.debug a;
              st_log := [tls_line;
                         connecting_line (Subscriber.broker a) (Subscriber.port a);
                         line ERROR [Lit "Connection failed: "; FExn e]];
              st_calls :=
                [ NewClient "kobayashi-subscriber-"
                    (Lib.randint 0 1000 (Subscriber.o_client_draw o));
                  TlsSet (Subscriber.ca_cert a) (Subscriber.cert a)
                    (Subscriber.key a);
                  Connect (Subscriber.broker a) (Subscriber.port a) ];
              st_conn := Disconnected |})).
Proof.
  intros decode loads a o e Hfs He. split.
  - intro Htls. rewrite (subscriber_run_tls_fails _ _ _ _ Hfs) by congruence.
    rewrite Htls. unfold setup_failure, setup_failure_lines. rewrite He.
    reflexivity.
  - intros Htls Hconn.
    rewrite (subscriber_run_connect_fails _ _ _ _ Hfs Htls) by congruence.
    rewrite Hconn. unfold setup_failure, setup_failure_lines. rewrite He.
    reflexivity.
Qed.

Lemma subscriber_setup_failure_exits_1_witness :
  fst (Subscriber.run Json.utf8_decode Json.json_loads Sample.sub_args
         Sample.sub_oracle_bad_tls) = Ok 1
  /\ fst (Subscriber.run Json.utf8_decode Json.json_loads Sample.sub_args
            Sample.sub_oracle_refused) = Ok 1
  /\ filter shutdown_call
       (st_calls (snd (Subscriber.run Json.utf8_decode Json.json_loads
                         Sample.sub_args Sample.sub_oracle_refused))) = [].
Proof.
  pose proof (subscriber_setup_failure_exits_1 Json.utf8_decode Json.json_loads
                Sample.sub_args Sample.sub_oracle_bad_tls
                (OtherError "key values mismatch") eq_refl eq_refl) as [H1 _].
  pose proof (subscriber_setup_failure_exits_1 Json.utf8_decode Json.json_loads
                Sample.sub_args Sample.sub_oracle_refused
                (OtherError "connection refused") eq_refl eq_refl) as [_ H2].
  rewrite (H1 eq_refl), (H2 eq_refl eq_refl). repeat split.
Defined.

(* ================================================================= *)
(** ** The credential check, both ways *)

Lemma first_unusable_none fs paths :
  first_unusable fs paths = None <-> forallb (usable fs) paths = true.
Proof.
  unfold first_unusable. induction paths as [|p rest IH]; [split; reflexivity|].
  cbn [find forallb]. destruct (usable fs p); cbn [negb andb].
  - exact IH.
  - split; discriminate.
Qed.

(** X12.  [check_cert_files] never raises; it returns [True] exactly
    when each of the three paths is a regular file the process can read,
    and then it has written nothing to the log and changed nothing
    else. *)
Theorem check_cert_files_accepts_usable_triples :
  forall (fs : filesystem) (ca_cert client_cert client_key : string) (st : state),
    let out := check_cert_files fs ca_cert client_cert client_key st in
    (fst out = Ok true \/ fst out = Ok false)
    /\ (fst out = Ok true
        <-> usable fs ca_cert && usable fs client_cert && usable fs client_key
            = true)
    /\ (fst out = Ok true -> snd out = st).
Proof.
  intros fs ca crt ky st out. subst out.
  pose proof (first_unusable_none fs [ca; crt; ky]) as Hiff.
  cbn [forallb] in Hiff. rewrite andb_true_r, andb_assoc in Hiff.
  destruct (first_unusable fs [ca; crt; ky]) as [p|] eqn:E.
  - unfold check_cert_files. rewrite (check_cert_loop_rejects _ _ _ _ E).
    cbn [fst snd]. split; [right; reflexivity|]. split; [split|].
    + discriminate.
    + intro H. apply Hiff in H. discriminate.
    + discriminate.
  - rewrite (check_cert_files_ok _ _ _ _ _ E). cbn [fst snd].
    split; [left; reflexivity|]. split; [split|].
    + intros _. apply Hiff. reflexivity.
    + reflexivity.
    + reflexivity.
Qed.

(** X12 at the complete set of files: accepted, state untouched. *)
Lemma check_cert_files_accepts_usable_triples_witness :
  fst (check_cert_files Sample.fs_complete "certs/ca/ca.crt"
         "certs/clients/subscriber.crt" "certs/clients/subscriber.key"
         Sample.debugging) = Ok true
  /\ snd (check_cert_files Sample.fs_complete "certs/ca/ca.crt"
            "certs/clients/subscriber.crt" "certs/clients/subscriber.key"
            Sample.debugging) = Sample.debugging.
Proof.
  pose proof (check_cert_files_accepts_usable_triples Sample.fs_complete
                "certs/ca/ca.crt" "certs/clients/subscriber.crt"
                "certs/clients/subscriber.key" Sample.debugging)
    as (_ & Hiff & Hsame).
  pose proof (proj2 Hiff eq_refl) as Hok.
  split; [exact Hok | exact (Hsame Hok)].
Defined.

(* ================================================================= *)
(** ** From the producer to the consumer *)

Lemma ascii7_app a b : ascii7 (a ++ b) = ascii7 a && ascii7 b.
Proof.
  induction a as [|x a IH]; simpl; [reflexivity|].
  rewrite IH, andb_assoc. reflexivity.
Qed.

Lemma plain_ascii7 s : plain s = true -> ascii7 s = true.
Proof.
  induction s as [|c s IH]; [reflexivity|].
  cbn [plain ascii7]. intro H. apply andb_prop in H. destruct H as [Hc Hs].
  rewrite (IH Hs), andb_true_r.
  apply plain_char_spec in Hc. apply N.ltb_lt. lia.
Qed.

Lemma plain_dumps_int z : plain (Lib.dumps_int z) = true.
Proof.
  unfold Lib.dumps_int.
  destruct z as [|p|p]; cbn [Z.to_int NilZero.string_of_int]; [reflexivity| |].
  - rewrite (string_of_uint_nonnil _ (normal_nonnil _ (normal_to_uint p))).
    apply plain_numeral.
  - rewrite (string_of_uint_nonnil _ (normal_nonnil _ (normal_to_uint p))).
    cbn [plain]. rewrite plain_numeral. reflexivity.
Qed.

Lemma ascii7_record n ts v st :
  plain ts = true ->
  plain st = true ->
  ascii7 (Lib.json_dumps (PDict [ ("message_id", PInt n); ("timestamp", PStr ts);
                                  ("value", PInt v); ("status", PStr st) ]))
  = true.
Proof.
  intros Hts Hst. cbn [Lib.json_dumps].
  rewrite (dumps_str_plain "message_id"), (dumps_str_plain "timestamp"),
    (dumps_str_plain "value"), (dumps_str_plain "status"),
    (dumps_str_plain ts), (dumps_str_plain st) by (assumption || reflexivity).
  rewrite !ascii7_app.
  rewrite !(plain_ascii7 _ (plain_dumps_int _)), (plain_ascii7 _ Hts),
    (plain_ascii7 _ Hst).
  reflexivity.
Qed.

Lemma to_N_byte_of_ascii c : Byte.to_N (byte_of_ascii c) = N_of_ascii c.
Proof. apply Byte.to_of_N. symmetry. apply byte_of_ascii_via_N. Qed.

Lemma utf8_ok_ascii7 s : forall fuel,
  (String.length s < fuel)%nat ->
  ascii7 s = true ->
  Json.utf8_ok fuel (map Byte.to_N (list_byte_of_string s)) = true.
Proof.
  induction s as [|c s IH]; intros fuel Hlen H.
  - destruct fuel; [inversion Hlen | reflexivity].
  - destruct fuel as [|fuel]; [inversion Hlen|].
    cbn [ascii7] in H. apply andb_prop in H. destruct H as [Hc Hs].
    change (list_byte_of_string (String c s))
      with (byte_of_ascii c :: list_byte_of_string s).
    cbn [map Json.utf8_ok]. rewrite to_N_byte_of_ascii, Hc.
    apply IH; [cbn [String.length] in Hlen; lia | exact Hs].
Qed.

Lemma length_list_byte_of_string s :
  List.length (list_byte_of_string s) = String.length s.
Proof.
  induction s as [|c s IH]; [reflexivity|].
  change (list_byte_of_string (String c s))
    with (byte_of_ascii c :: list_byte_of_string s).
  cbn [List.length String.length]. rewrite IH. reflexivity.
Qed.

(** Text of 7-bit characters goes through the wire unchanged. *)
Lemma utf8_decode_encode s :
  ascii7 s = true -> Json.utf8_decode (Json.utf8_encode s) = Some s.
Proof.
  intro H. unfold Json.utf8_decode, Json.utf8_encode.
  rewrite utf8_ok_ascii7, string_of_list_byte_of_string;
    [reflexivity | rewrite length_list_byte_of_string; lia | exact H].
Qed.

(** X13.  A record with integer [message_id] and [value] and with
    [timestamp] and [status] texts made of printable ASCII characters
    other than the quote and the backslash survives the trip from the
    producer to the consumer: the text [json.dumps] writes is pure
    7-bit text, its UTF-8 encoding decodes to the same text, and
    [json.loads] reads that text back as the same record. *)
Theorem record_survives_the_wire :
  forall (message_id value : Z) (timestamp status : string),
    plain timestamp = true ->
    plain status = true ->
    let record := PDict [ ("message_id", PInt message_id);
                          ("timestamp", PStr timestamp);
                          ("value", PInt value);
                          ("status", PStr status) ] in
    Json.utf8_decode (Json.utf8_encode (Lib.json_dumps record))
    = Some (Lib.json_dumps record)
    /\ Json.json_loads (Lib.json_dumps record) = Some record.
Proof.
  intros n v ts st Hts Hst record. split.
  - apply utf8_decode_encode, ascii7_record; assumption.
  - apply loads_record; assumption.
Qed.

Lemma record_survives_the_wire_witness :
  Json.utf8_decode (Json.utf8_encode (Lib.json_dumps Sample.record_red))
  = Some (Lib.json_dumps Sample.record_red)
  /\ Json.json_loads (Lib.json_dumps Sample.record_red) = Some Sample.record_red.
Proof.
  exact (record_survives_the_wire 7 93 "2025-01-02 03:04:00" "red"
           eq_refl eq_refl).
Defined.

(** X14.  A message built by [create_sample_message], serialised by
    the producer and handed as UTF-8 bytes to the consumer's
    [on_message], is accepted: the consumer logs the header, the
    message id the producer numbered it with, its timestamp, the time
    of receipt, its value and its status, writes no error line, and
    raises the alert exactly when the status drawn is "red". *)
Theorem produced_message_is_accepted :
  forall (message_count : Z) (sent : Lib.struct_time) (draw_value draw_status : N)
         (topic : string) (received : Lib.struct_time) (st : state),
    let msg :=
      {| Subscriber.m_topic := topic;
         Subscriber.m_payload :=
           Json.utf8_encode
             (Lib.json_dumps
                (Publisher.create_sample_message message_count sent
                   draw_value draw_status)) |} in
    Subscriber.on_message Json.utf8_decode Json.json_loads msg received st
    = (Ok tt,
       add_log st
         ([ header msg;
            line INFO [Lit "Message ID: "; FVal (PInt message_count)];
            line INFO [Lit "Message timestamp: "; FVal (PStr (Lib.strftime sent))];
            line INFO [Lit "Received at: "; FStr (Lib.strftime received)];
            line INFO [Lit "Value: "; FVal (PInt (Lib.randint 0 100 draw_value))];
            line INFO [Lit "Status: ";
                       FVal (PStr (Lib.choice Publisher.statuses draw_status))] ]
          ++ (if String.eqb (Lib.choice Publisher.statuses draw_status) "red"
              then [alert_line] else []))).
Proof.
  intros n sent dv ds topic received st msg.
  apply (on_message_complete Json.utf8_decode Json.json_loads msg received st
           (Lib.json_dumps (Publisher.create_sample_message n sent dv ds))
           [ ("message_id", PInt n); ("timestamp", PStr (Lib.strftime sent));
             ("value", PInt (Lib.randint 0 100 dv));
             ("status", PStr (Lib.choice Publisher.statuses ds)) ]);
    try reflexivity.
  - apply utf8_decode_encode, ascii7_record;
      [apply plain_strftime | apply plain_choice].
  - apply loads_record; [apply plain_strftime | apply plain_choice].
Qed.
